(** * netmon_dual: a shallow embedding of [src/client/netmon_dual.py]

    The monitor probes each configured network interface in stages (link,
    address, route, gateway ping, HTTP HEAD, public address), flattens the
    outcome into one CSV row per tick, appends the row to the day's log and,
    when some interface is healthy, hands the log to the Azure uploader.

    Conventions of the embedding:
    - Python [str] is [string]; text helpers follow the ASCII behaviour of
      [str.strip], [str.split], [str.splitlines], [in] and [startswith];
    - a Python exception is a value of [exn] carried by [res]; [try]/[except
      Exception] is [try_except];
    - a [dict] whose order is observable (a CSV row) is an association list
      updated in place; a [dict] only read by key is a [gmap];
    - the command executor [run], the clock, the process environment and the
      Azure SDK are inputs of the model; file-system writes succeed. *)

From Stdlib Require Import ZArith Ascii String List Bool Lia.
From stdpp Require Import base option list gmap strings pretty.

Local Open Scope Z_scope.

(* ===================================================================== *)
(** ** Exceptions and results *)
(* ===================================================================== *)

Inductive exn : Type :=
  | NameError (name : string)
  | IndexError
  | KeyError (key : string)
  | ValueError
  | OtherError (msg : string).

(** What [str(e)] prints in an f-string. *)
Definition exn_str (e : exn) : string :=
  match e with
  | NameError n => "name '" +:+ n +:+ "' is not defined"
  | IndexError => "list index out of range"
  | KeyError k => "'" +:+ k +:+ "'"
  | ValueError => "invalid literal"
  | OtherError m => m
  end.

Inductive res (A : Type) : Type :=
  | Ret (a : A)
  | Raise (e : exn).
Arguments Ret {A} a.
Arguments Raise {A} e.

Global Instance res_ret : MRet res := fun A a => Ret a.
Global Instance res_bind : MBind res := fun A B k m =>
  match m with
  | Ret a => k a
  | Raise e => Raise e
  end.

(** [try: body except Exception: handler]. *)
Definition try_except {A : Type} (body : res A) (handler : exn -> A) : A :=
  match body with
  | Ret a => a
  | Raise e => handler e
  end.

Definition of_option {A : Type} (e : exn) (o : option A) : res A :=
  match o with
  | Some a => Ret a
  | None => Raise e
  end.

(** [l[i]] on a list. *)
Definition py_index {A : Type} (l : list A) (i : nat) : res A :=
  of_option IndexError (l !! i).

(* ===================================================================== *)
(** ** Python text helpers *)
(* ===================================================================== *)

Module PyStr.

Definition dquote : ascii := "034"%char.
Definition LF : ascii := "010"%char.
Definition CR : ascii := "013"%char.

(** [str.isspace] on one ASCII character. *)
Definition is_space (c : ascii) : bool :=
  match c with
  | "009" | "010" | "011" | "012" | "013"
  | "028" | "029" | "030" | "031" | " " => true
  | _ => false
  end%char.

(** A line boundary of [str.splitlines] other than the pair CR LF. *)
Definition is_linebreak (c : ascii) : bool :=
  match c with
  | "010" | "011" | "012" | "013" | "028" | "029" | "030" => true
  | _ => false
  end%char.

Fixpoint lstrip (s : string) : string :=
  match s with
  | String c s' => if is_space c then lstrip s' else s
  | EmptyString => EmptyString
  end.

Definition rstrip (s : string) : string :=
  String.rev (lstrip (String.rev s)).

Definition strip (s : string) : string := rstrip (lstrip s).

Definition flush (cur : string) : list string :=
  match cur with
  | EmptyString => []
  | _ => [String.rev cur]
  end.

(** [s.split()]: maximal runs of non-blank characters; [cur] holds the run
    being read, reversed. *)
Fixpoint split_go (cur : string) (s : string) : list string :=
  match s with
  | EmptyString => flush cur
  | String c s' =>
      if is_space c then flush cur ++ split_go EmptyString s'
      else split_go (String c cur) s'
  end.

Definition split (s : string) : list string := split_go EmptyString s.

Definition startswith (s pre : string) : bool := String.prefix pre s.

(** [sub in s]. *)
Fixpoint contains (sub s : string) : bool :=
  String.prefix sub s ||
  match s with
  | EmptyString => false
  | String _ s' => contains sub s'
  end.

(** [s.split(sep)] for a non-empty [sep]: [skip] counts the characters of
    a separator still to be dropped, [cur] is the piece being read,
    reversed. *)
Fixpoint split_on_go (sep : string) (skip : nat) (cur : string) (s : string)
  : list string :=
  match s with
  | EmptyString => [String.rev cur]
  | String c s' =>
      match skip with
      | S k => split_on_go sep k cur s'
      | O =>
          if String.prefix sep s
          then String.rev cur
                 :: split_on_go sep (Nat.pred (String.length sep)) EmptyString s'
          else split_on_go sep O (String c cur) s'
      end
  end.

Definition split_on (sep s : string) : list string :=
  split_on_go sep O EmptyString s.

(** [s.splitlines()]: CR LF counts as one boundary and a final boundary
    opens no empty last line. *)
Fixpoint splitlines_go (cur : option string) (s : string) : list string :=
  match s with
  | EmptyString =>
      match cur with
      | Some l => [String.rev l]
      | None => []
      end
  | String c s' =>
      if is_linebreak c then
        String.rev (default EmptyString cur) ::
          match s' with
          | String c' s'' =>
              if Ascii.eqb c CR && Ascii.eqb c' LF
              then match splitlines_go None s' with
                   | _ :: rest => rest
                   | [] => []
                   end
              else splitlines_go None s'
          | EmptyString => []
          end
      else splitlines_go (Some (String c (default EmptyString cur))) s'
  end.

Definition splitlines (s : string) : list string := splitlines_go None s.

Definition join (sep : string) (l : list string) : string :=
  String.concat sep l.

(** [str(b)] for a [bool]. *)
Definition of_bool (b : bool) : string := if b then "True" else "False".

(** [str(n)] for an [int]. *)
Definition of_int (n : Z) : string := pretty n.

(** [bool(s)]: a string is true when it is not empty. *)
Definition truthy (s : string) : bool :=
  match s with
  | EmptyString => false
  | _ => true
  end.

End PyStr.

(* ===================================================================== *)
(** ** Numbers read from command output *)
(* ===================================================================== *)

(** The interpreter's numeric built-ins the probes rely on: [int(s)],
    [float(s)] ([None] where Python raises [ValueError]), the product of two
    floats, the literal [1000.0] and the format [f"{x:.2f}"]. Every theorem
    below holds for any implementation of them. *)
Class Builtins : Type := {
  pyfloat : Type;
  int_of_str : string -> option Z;
  float_of_str : string -> option pyfloat;
  fmul : pyfloat -> pyfloat -> pyfloat;
  f1000 : pyfloat;
  format_2f : pyfloat -> string;
}.

Definition py_int `{Builtins} (s : string) : res Z :=
  of_option ValueError (int_of_str s).
Definition py_float `{Builtins} (s : string) : res pyfloat :=
  of_option ValueError (float_of_str s).

(** [int(b)] for a [bool]. *)
Definition int_of_bool (b : bool) : Z := if b then 1 else 0.

(* ===================================================================== *)
(** ** The command executor *)
(* ===================================================================== *)

Record CompletedProcess : Type := {
  returncode : Z;
  stdout : string;
  stderr : string;
}.

(** [run(cmd, timeout)]: the finished process, or the exception that
    [subprocess.run] raised (time-out, missing binary). *)
Definition executor : Type := list string -> Z -> res CompletedProcess.

(* ===================================================================== *)
(** ** Interface inspector and reachability prober *)
(* ===================================================================== *)

Section Probes.
Context `{Builtins}.
Variable run : executor.

Definition iface_is_up (iface : string) : bool :=
  try_except
    (p ← run ["ip"; "link"; "show"; "dev"; iface] 2;
     if negb (returncode p =? 0) then mret false
     else mret (PyStr.contains "state UP" (stdout p)))
    (fun _ => false).

(** The [for line in p.stdout.splitlines()] loop of [iface_ipv4]. *)
Fixpoint first_inet (lines : list string) : res string :=
  match lines with
  | [] => mret ""
  | line :: rest =>
      let line := PyStr.strip line in
      if PyStr.startswith line "inet " then
        addr ← py_index (PyStr.split line) 1;
        py_index (PyStr.split_on "/" addr) 0
      else first_inet rest
  end.

Definition iface_ipv4 (iface : string) : string :=
  try_except
    (p ← run ["ip"; "-4"; "addr"; "show"; "dev"; iface] 2;
     if negb (returncode p =? 0) then mret ""
     else first_inet (PyStr.splitlines (stdout p)))
    (fun _ => "").

(** The [for i, tok in enumerate(parts)] loop of [gateway_for_iface]. *)
Fixpoint after_via (parts : list string) : string :=
  match parts with
  | [] => ""
  | tok :: rest =>
      if String.eqb tok "via" then
        match rest with
        | next :: _ => next
        | [] => after_via rest
        end
      else after_via rest
  end.

Definition gateway_for_iface (iface : string) : string :=
  try_except
    (p ← run ["ip"; "route"; "show"; "default"; "dev"; iface] 2;
     if negb (returncode p =? 0) then mret ""
     else mret (after_via (PyStr.split (PyStr.strip (stdout p)))))
    (fun _ => "").

(** The loop of [ping_via_iface]: the first line holding [time=] decides,
    and a failed conversion leaves [rtt] at [None]. *)
Fixpoint first_time (lines : list string) : option pyfloat :=
  match lines with
  | [] => None
  | line :: rest =>
      if PyStr.contains "time=" line then
        try_except
          (after ← py_index (PyStr.split_on "time=" line) 1;
           rtt_str ← py_index (PyStr.split after) 0;
           rtt ← py_float rtt_str;
           mret (Some rtt))
          (fun _ => None)
      else first_time rest
  end.

Definition ping_via_iface (iface host : string) (timeout_s : Z)
  : bool * option pyfloat :=
  try_except
    (p ← run ["ping"; "-I"; iface; "-c"; "1"; "-W"; PyStr.of_int timeout_s; host]
           (timeout_s + 2);
     if negb (returncode p =? 0) then mret (false, None)
     else mret (true, first_time (PyStr.splitlines (stdout p))))
    (fun _ => (false, None)).

Definition curl_head_cmd (iface url : string) (timeout_s : Z) : list string :=
  ["curl"; "--interface"; iface; "-I"; "-L"; "--max-time"; PyStr.of_int timeout_s;
   "-o"; "/dev/null"; "-sS"; "-w"; "%{http_code} %{time_total}"; url].

Definition curl_head_via_iface (iface url : string) (timeout_s : Z)
  : bool * option pyfloat * option Z :=
  try_except
    (p ← run (curl_head_cmd iface url timeout_s) (timeout_s + 2);
     if negb (returncode p =? 0) then mret (false, None, None)
     else
       let out := PyStr.split (PyStr.strip (stdout p)) in
       if negb (length out =? 2)%nat then mret (false, None, None)
       else
         code_str ← py_index out 0;
         code ← py_int code_str;
         t_str ← py_index out 1;
         t_sec ← py_float t_str;
         let ms := fmul t_sec f1000 in
         let ok := (200 <=? code) && (code <? 600) in
         mret (ok, Some ms, Some code))
    (fun _ => (false, None, None)).

Definition curl_get_via_iface (iface url : string) (timeout_s : Z) : string :=
  try_except
    (p ← run ["curl"; "--interface"; iface; "-L"; "--max-time";
              PyStr.of_int timeout_s; "-sS"; url] (timeout_s + 2);
     if negb (returncode p =? 0) then mret ""
     else mret (PyStr.strip (stdout p)))
    (fun _ => "").

End Probes.

(* ===================================================================== *)
(** ** Dictionaries with observable order *)
(* ===================================================================== *)

(** The values a result dictionary or a CSV row holds. *)
Inductive value : Type :=
  | VInt (n : Z)
  | VStr (s : string).

Global Instance value_eq_dec : EqDecision value.
Proof. solve_decision. Defined.

(** [str(v)]. *)
Definition value_str (v : value) : string :=
  match v with
  | VInt n => PyStr.of_int n
  | VStr s => s
  end.

(** A [dict] keeps its keys in insertion order. *)
Abbreviation dict := (list (string * value)).

Fixpoint dict_get (d : dict) (k : string) : option value :=
  match d with
  | [] => None
  | (k', v) :: d' => if String.eqb k' k then Some v else dict_get d' k
  end.

(** [d[k]]. *)
Definition dict_item (d : dict) (k : string) : res value :=
  of_option (KeyError k) (dict_get d k).

(** [d[k] = v]: an existing key keeps its place, a new one goes last. *)
Fixpoint dict_set (d : dict) (k : string) (v : value) : dict :=
  match d with
  | [] => [(k, v)]
  | (k', v') :: d' =>
      if String.eqb k' k then (k', v) :: d' else (k', v') :: dict_set d' k v
  end.

Definition dict_keys (d : dict) : list string := d.*1.
Definition dict_values (d : dict) : list value := d.*2.

(* ===================================================================== *)
(** ** Interface health evaluator *)
(* ===================================================================== *)

Definition IFACES : list string := ["eth0"; "wlan0"].
Definition PUBLIC_IP_URL : string := "https://api.ipify.org".
Definition INTERVAL_SECONDS : Z := 30.

(** [a and b] on two [bool]s. *)
Definition py_and (a b : bool) : bool := if a then b else a.

(** The local variables of [check_iface] when it returns. *)
Record iface_check `{Builtins} : Type := {
  up : bool;
  ip4 : string;
  gw : string;
  local_ok : bool;
  gw_rtt : option pyfloat;
  nos_ok : bool;
  nos_ms : option pyfloat;
  nos_code : option Z;
  public_ip : string;
  iface_ok : bool;
}.

(** The dictionary literal [check_iface] returns. *)
Definition result_dict `{Builtins} (c : iface_check) : dict :=
  [ ("iface_up", VInt (int_of_bool (up c)));
    ("iface_ipv4", VStr (ip4 c));
    ("gateway", VStr (gw c));
    ("local_ok", VInt (int_of_bool (local_ok c)));
    ("gateway_rtt_ms", VStr (from_option format_2f "" (gw_rtt c)));
    ("nos_ok", VInt (int_of_bool (nos_ok c)));
    ("nos_status", from_option VInt (VStr "") (nos_code c));
    ("nos_response_ms", VStr (from_option format_2f "" (nos_ms c)));
    ("public_ip", VStr (public_ip c));
    ("iface_ok", VInt (int_of_bool (iface_ok c))) ].

Section Evaluator.
Context `{Builtins}.
Variable URL2CHECK : string.
Variable run : executor.

Definition check_iface_stages (iface : string) : iface_check :=
  let up := iface_is_up run iface in
  let ip4 := if up then iface_ipv4 run iface else "" in
  let gw := if PyStr.truthy ip4 then gateway_for_iface run iface else "" in
  let '(local_ok, gw_rtt) :=
    if PyStr.truthy gw then ping_via_iface run iface gw 1 else (false, None) in
  let '(nos_ok, nos_ms, nos_code, public_ip) :=
    if local_ok then
      let '(nos_ok, nos_ms, nos_code) := curl_head_via_iface run iface URL2CHECK 6 in
      (nos_ok, nos_ms, nos_code,
       if nos_ok then curl_get_via_iface run iface PUBLIC_IP_URL 6 else "")
    else (false, None, None, "") in
  let iface_ok := py_and local_ok nos_ok in
  {| up := up; ip4 := ip4; gw := gw; local_ok := local_ok; gw_rtt := gw_rtt;
     nos_ok := nos_ok; nos_ms := nos_ms; nos_code := nos_code;
     public_ip := public_ip; iface_ok := iface_ok |}.

Definition check_iface (iface : string) : dict :=
  result_dict (check_iface_stages iface).

(* ------------------------------------------------------------------- *)
(** *** Aggregation in [main] *)

(** [{iface: check_iface(iface) for iface in ifaces}]. *)
Definition check_all (ifaces : list string) : gmap string dict :=
  foldl (fun m iface => <[iface := check_iface iface]> m) ∅ ifaces.

(** [results[i]]. *)
Definition results_item (results : gmap string dict) (i : string) : res dict :=
  of_option (KeyError i) (results !! i).

(** [any(results[i]["iface_ok"] == 1 for i in ifaces)]. *)
Fixpoint any_iface_ok (results : gmap string dict) (ifaces : list string)
  : res bool :=
  match ifaces with
  | [] => mret false
  | i :: rest =>
      r ← results_item results i;
      v ← dict_item r "iface_ok";
      if bool_decide (v = VInt 1) then mret true else any_iface_ok results rest
  end.

(** [results.get(i, {}).get("iface_ok") == 1]. *)
Definition get_iface_ok (results : gmap string dict) (i : string) : bool :=
  bool_decide (dict_get (default [] (results !! i)) "iface_ok" = Some (VInt 1)).

Definition preferred_iface (results : gmap string dict) : string :=
  if get_iface_ok results "eth0" then "eth0"
  else if get_iface_ok results "wlan0" then "wlan0" else "".

(** [for k, v in r.items(): row[f"{iface}_{k}"] = v]. *)
Definition add_columns (iface : string) (r : dict) (row : dict) : dict :=
  foldl (fun row kv => dict_set row (iface +:+ "_" +:+ kv.1) kv.2) row r.

(** [for iface in ifaces: r = results[iface]; ...]. *)
Fixpoint flatten (results : gmap string dict) (ifaces : list string) (row : dict)
  : res dict :=
  match ifaces with
  | [] => mret row
  | iface :: rest =>
      r ← results_item results iface;
      flatten results rest (add_columns iface r row)
  end.

(** The row of one tick: the part of the loop body of [main] from
    [results = ...] to the end of the flattening; it also yields
    [overall_ok] and [preferred], which the rest of the body reads. *)
Definition tick_row (ts : string) : res (bool * string * dict) :=
  let results := check_all IFACES in
  overall_ok ← any_iface_ok results IFACES;
  let preferred := preferred_iface results in
  let row := [ ("timestamp", VStr ts);
               ("overall_ok", VInt (int_of_bool overall_ok));
               ("preferred_iface", VStr preferred) ] in
  row ← flatten results IFACES row;
  mret (overall_ok, preferred, row).

End Evaluator.

(* ===================================================================== *)
(** ** Paths, dates and files *)
(* ===================================================================== *)

(** A path is its list of components; a file is its text. *)
Abbreviation Path := (list string).

(** [p / name]. *)
Definition path_join (p : Path) (name : string) : Path := p ++ [name].

(** [p.name]: the last component. *)
Definition path_name (p : Path) : string := List.last p "".

(** [str(p)]. *)
Definition path_str (p : Path) : string := PyStr.join "/" p.

Definition LOG_DIR : Path := ["log"].

(** [ensure_log_dir]: [mkdir_denied] tells whether creating [LOG_DIR] raises
    [PermissionError]; [home] is [Path.home()]. *)
Definition ensure_log_dir (mkdir_denied : bool) (home : Path) : Path :=
  if mkdir_denied then path_join home "netmon_logs" else LOG_DIR.

Record date : Type := { year : Z; month : Z; day : Z }.

(** Left padding with zeros up to [width] characters. *)
Definition zfill (width : nat) (s : string) : string :=
  String.concat "" (replicate (width - String.length s) "0") +:+ s.

(** [d.isoformat()]: YYYY-MM-DD. *)
Definition isoformat (d : date) : string :=
  zfill 4 (PyStr.of_int (year d)) +:+ "-" +:+ zfill 2 (PyStr.of_int (month d))
    +:+ "-" +:+ zfill 2 (PyStr.of_int (day d)).

(** [log_path_for_today], with [date.today()] passed in. *)
Definition log_path_for_today (log_dir : Path) (today : date) : Path :=
  path_join log_dir ("netmon_" +:+ isoformat today +:+ ".csv").

(** [open(p, "a")] followed by [write(text)]: the file is created when it is
    missing and the text goes to its end. *)
Definition file_append (p : Path) (text : string) (fs : gmap Path string)
  : gmap Path string :=
  <[p := default "" (fs !! p) +:+ text]> fs.

(** [p.exists()]. *)
Definition path_exists (fs : gmap Path string) (p : Path) : bool :=
  bool_decide (is_Some (fs !! p)).

(* ===================================================================== *)
(** ** The CSV writer ([csv.DictWriter], excel dialect) *)
(* ===================================================================== *)

Module Csv.

Definition lineterminator : string := String PyStr.CR (String PyStr.LF "").

(** A field is quoted when it holds the delimiter, the quote character or
    a character of the line terminator. *)
Definition special (c : ascii) : bool :=
  Ascii.eqb c ","%char || Ascii.eqb c PyStr.dquote
  || Ascii.eqb c PyStr.CR || Ascii.eqb c PyStr.LF.

Fixpoint needs_quotes (s : string) : bool :=
  match s with
  | EmptyString => false
  | String c s' => special c || needs_quotes s'
  end.

(** Quote characters inside a quoted field are doubled. *)
Fixpoint escape (s : string) : string :=
  match s with
  | EmptyString => EmptyString
  | String c s' =>
      if Ascii.eqb c PyStr.dquote
      then String c (String c (escape s'))
      else String c (escape s')
  end.

Definition quoted (s : string) : string :=
  String PyStr.dquote (escape s +:+ String PyStr.dquote "").

Definition format_field (s : string) : string :=
  if needs_quotes s then quoted s else s.

(** [writer.writerow(fields)]: a record made of one empty field is written
    as a pair of quotes. *)
Definition format_record (fields : list string) : string :=
  match fields with
  | [EmptyString] => quoted ""
  | _ => PyStr.join "," (format_field <$> fields)
  end +:+ lineterminator.

(** [DictWriter.writeheader()]. *)
Definition writeheader (fieldnames : list string) : string :=
  format_record fieldnames.

(** [DictWriter.writerow(row)]: the values of the field names, in their
    order, a missing one as the empty string. *)
Definition writerow (fieldnames : list string) (row : dict) : string :=
  format_record
    ((fun k => from_option value_str "" (dict_get row k)) <$> fieldnames).

End Csv.

(** [append_row(csv_path, row)]. *)
Definition append_row (csv_path : Path) (row : dict) (fs : gmap Path string)
  : gmap Path string :=
  let new_file := negb (path_exists fs csv_path) in
  let fs := file_append csv_path "" fs in
  let fieldnames := dict_keys row in
  let fs := if new_file then file_append csv_path (Csv.writeheader fieldnames) fs
            else fs in
  file_append csv_path (Csv.writerow fieldnames row) fs.

(** The text [append_row] writes for a row. *)
Definition row_text (row : dict) : string := Csv.writerow (dict_keys row) row.

(** The text [append_row] writes before the first row of a new file. *)
Definition header_text (row : dict) : string := Csv.writeheader (dict_keys row).

(** [append_row] called once for each row of a list, in order. *)
Definition append_rows (p : Path) (rows : list dict) (fs : gmap Path string)
  : gmap Path string :=
  foldl (fun fs row => append_row p row fs) fs rows.

(* ===================================================================== *)
(** ** Upload notifier *)
(* ===================================================================== *)

(** The calls [azure_upload] makes into [azure.storage.blob]; each may
    raise. *)
Class AzureSdk : Type := {
  service_client : Type;
  blob_client : Type;
  from_connection_string : string -> res service_client;
  new_service_client : string -> string -> res service_client;
  get_blob_client : service_client -> string -> string -> res blob_client;
  upload_blob : blob_client -> string -> bool -> res unit;
}.

Section Upload.
Context `{AzureSdk}.
(** Values read from the configuration file when the module is loaded. *)
Variables URL2CHECK AZURE_CONTAINER AZURE_STORAGE_CONNECTION_STRING : string.
(** [os.environ]. *)
Variable environ : gmap string string.

(** The module-level names bound to a string. The remaining module-level
    names are the imports, [INTERVAL_SECONDS], [LOG_DIR], [IFACES],
    [inifileHandler] and the functions; no statement of the module binds
    [AZURE_ACCOUNT_DEFAULT]. *)
Definition module_strings : list (string * string) :=
  [ ("PUBLIC_IP_URL", PUBLIC_IP_URL);
    ("URL2CHECK", URL2CHECK);
    ("AZURE_CONTAINER", AZURE_CONTAINER);
    ("AZURE_STORAGE_CONNECTION_STRING", AZURE_STORAGE_CONNECTION_STRING) ].

(** Reading a global name inside a function. *)
Definition load_global (name : string) : res string :=
  of_option (NameError name)
    (snd <$> List.find (fun kv => String.eqb kv.1 name) module_strings).

(** [os.getenv(name, default)]. *)
Definition getenv (name fallback : string) : string :=
  default fallback (environ !! name).

(** [local_file.open("rb")] and the read that the upload makes of it. *)
Definition read_file (fs : gmap Path string) (p : Path) : res string :=
  of_option
    (OtherError ("[Errno 2] No such file or directory: '" +:+ path_str p +:+ "'"))
    (fs !! p).

(** The part of [azure_upload] after the client [bsc] is built. *)
Definition upload_with (fs : gmap Path string) (local_file : Path)
    (container : string) (bsc : service_client) : res (bool * string) :=
  let blob_name := path_name local_file in
  blob ← get_blob_client bsc container blob_name;
  data ← read_file fs local_file;
  upload_blob blob data true;;
  mret (true, "Uploaded to container '" +:+ container +:+ "' as '"
                +:+ blob_name +:+ "'").

Definition azure_upload (fs : gmap Path string) (local_file : Path)
  : res (bool * string) :=
  let container := PyStr.strip (getenv "AZURE_CONTAINER" "") in
  if negb (PyStr.truthy container) then mret (false, "AZURE_CONTAINER not set")
  else
    let conn_str := PyStr.strip (getenv "AZURE_STORAGE_CONNECTION_STRING" "") in
    let sas := PyStr.strip (getenv "AZURE_STORAGE_SAS_TOKEN" "") in
    account_default ← load_global "AZURE_ACCOUNT_DEFAULT";
    let account := PyStr.strip (getenv "AZURE_STORAGE_ACCOUNT" account_default) in
    mret (try_except
      (if PyStr.truthy conn_str then
         bsc ← from_connection_string conn_str;
         upload_with fs local_file container bsc
       else if PyStr.truthy sas then
         let account_url := "https://" +:+ account +:+ ".blob.core.windows.net" in
         bsc ← new_service_client account_url sas;
         upload_with fs local_file container bsc
       else
         mret (false,
           "No AZURE_STORAGE_CONNECTION_STRING or AZURE_STORAGE_SAS_TOKEN set"))
      (fun e => (false, "Azure upload failed: " +:+ exn_str e))).

End Upload.

(* ===================================================================== *)
(** ** The scheduler loop *)
(* ===================================================================== *)

(** What a tick does to the outside, apart from writing files. *)
Inductive event : Type :=
  | Printed (line : string)
  | UploadCalled (file : Path)
  | UploadReturned (ok : bool) (msg : string)
  | Slept (seconds : Z).

Record machine : Type := {
  files : gmap Path string;
  trace : list event;
}.

(** A step of the program: a result or an exception, and the machine it
    leaves; what was done before an exception stays done. *)
Definition M (A : Type) : Type := machine -> res A * machine.

Global Instance M_ret : MRet M := fun A a m => (Ret a, m).
Global Instance M_bind : MBind M := fun A B k c m =>
  match c m with
  | (Ret a, m') => k a m'
  | (Raise e, m') => (Raise e, m')
  end.

Definition lift {A : Type} (r : res A) : M A := fun m => (r, m).

Definition emit (e : event) : M unit :=
  fun m => (Ret tt, {| files := files m; trace := trace m ++ [e] |}).

Definition update_files (f : gmap Path string -> gmap Path string) : M unit :=
  fun m => (Ret tt, {| files := f (files m); trace := trace m |}).

Definition get_files : M (gmap Path string) := fun m => (Ret (files m), m).

Definition is_upload_call (e : event) : bool :=
  match e with
  | UploadCalled _ => true
  | _ => false
  end.

Definition is_upload_outcome (e : event) : bool :=
  match e with
  | UploadReturned _ _ => true
  | _ => false
  end.

(** What one tick reads from the outside. *)
Record tick_input : Type := {
  clock_now : string;        (* datetime.now().isoformat(timespec="seconds") *)
  clock_today : date;        (* date.today() *)
  run : executor;
}.

(** The line written to [netmon_upload.log]. *)
Definition audit_line (ts : string) (csv_name : string) (overall_ok : bool)
    (preferred : string) (ok : bool) (msg : string) : string :=
  ts +:+ " | " +:+ csv_name +:+ " | overall_ok=" +:+ PyStr.of_bool overall_ok
     +:+ " | preferred=" +:+ preferred +:+ " | " +:+ PyStr.of_bool ok
     +:+ " | " +:+ msg +:+ String PyStr.LF "".

Section Main.
Context `{Builtins} `{AzureSdk}.
Variables URL2CHECK AZURE_CONTAINER AZURE_STORAGE_CONNECTION_STRING : string.
Variable environ : gmap string string.

(** One pass through the body of [while True] in [main]. *)
Definition tick (log_dir : Path) (inp : tick_input) : M unit :=
  let ts := clock_now inp in
  '(overall_ok, preferred, row) ← lift (tick_row URL2CHECK (run inp) ts);
  let csv_path := log_path_for_today log_dir (clock_today inp) in
  emit (Printed (ts +:+ " - add results to " +:+ path_str csv_path));;
  update_files (append_row csv_path row);;
  (if overall_ok : bool then
     emit (UploadCalled csv_path);;
     fs ← get_files;
     '(ok, msg) ← lift (azure_upload URL2CHECK AZURE_CONTAINER
                          AZURE_STORAGE_CONNECTION_STRING environ fs csv_path);
     emit (UploadReturned ok msg);;
     (* try: ... except Exception: pass -- the write has nothing to raise *)
     update_files (file_append (path_join log_dir "netmon_upload.log")
                     (audit_line ts (path_name csv_path) overall_ok preferred ok msg))
   else mret tt);;
  emit (Slept INTERVAL_SECONDS).

(** [main] for as many ticks as there are inputs: it stops at the first
    exception that leaves the loop. *)
Fixpoint main_loop (log_dir : Path) (inputs : list tick_input) : M unit :=
  match inputs with
  | [] => mret tt
  | inp :: rest => tick log_dir inp;; main_loop log_dir rest
  end.

Definition main (mkdir_denied : bool) (home : Path) (inputs : list tick_input)
  : M unit :=
  main_loop (ensure_log_dir mkdir_denied home) inputs.

End Main.

(* ===================================================================== *)
(** ** What the specification says of a tick *)
(* ===================================================================== *)

(** The definitions of this part follow the words of the specification; the
    theorems compare them with the code above. *)

(** The ten fields of an interface result, in the order of the record. *)
Definition RESULT_FIELDS : list string :=
  [ "iface_up"; "iface_ipv4"; "gateway"; "local_ok"; "gateway_rtt_ms"; "nos_ok";
    "nos_status"; "nos_response_ms"; "public_ip"; "iface_ok" ].

(** The columns of a flattened row: the three tick columns, then the fields
    of each interface under its name, interface by interface. *)
Definition row_columns (ifaces : list string) : list string :=
  [ "timestamp"; "overall_ok"; "preferred_iface" ]
    ++ (iface ← ifaces; (fun k => iface +:+ "_" +:+ k) <$> RESULT_FIELDS).

(** "The first interface in configured order whose healthy flag is true, or
    empty if none". *)
Definition first_healthy (ifaces : list string) (healthy : string -> bool) : string :=
  default "" (List.find healthy ifaces).

(** "The logical OR of all interfaces' healthy flags". *)
Definition or_healthy (ifaces : list string) (healthy : string -> bool) : bool :=
  foldr (fun iface acc => healthy iface || acc) false ifaces.

(** The audit line as the specification lays it out, the overall-health
    field being [0] or [1] and the upload flag any text. *)
Definition spec_audit_line (ts filename : string) (overall : bool)
    (preferred upload_ok msg : string) : string :=
  ts +:+ " | " +:+ filename +:+ " | overall_ok=" +:+ PyStr.of_int (int_of_bool overall)
     +:+ " | preferred=" +:+ preferred +:+ " | " +:+ upload_ok +:+ " | " +:+ msg
     +:+ String PyStr.LF "".

(** The keys of a dictionary after [d[k] = v], from its keys before. *)
Fixpoint keys_set (ks : list string) (k : string) : list string :=
  match ks with
  | [] => [k]
  | k' :: ks' => if String.eqb k' k then ks else k' :: keys_set ks' k
  end.

(* ===================================================================== *)
(** ** A reference runtime and sample hosts *)
(* ===================================================================== *)

(** Used to run the model on concrete command output: numbers are exact
    decimals [mant / 10 ^ expo], read from plain decimal literals (the shape
    [ping] and [curl] print), and the SDK is a stub. *)
Module Sample.

Record dec : Type := { mant : Z; expo : nat }.

Fixpoint digits_go (acc : Z) (s : string) : option Z :=
  match s with
  | EmptyString => Some acc
  | String c s' =>
      match Ascii.is_nat c with
      | Some d => digits_go (10 * acc + Z.of_nat d) s'
      | None => None
      end
  end.

(** A non-empty run of decimal digits. *)
Definition digits (s : string) : option Z :=
  match s with
  | EmptyString => None
  | _ => digits_go 0 s
  end.

Definition signed {A : Type} (f : string -> option A) (neg : A -> A) (s : string)
  : option A :=
  match s with
  | String "-" s' => neg <$> f s'
  | String "+" s' => f s'
  | _ => f s
  end.

Definition parse_int (s : string) : option Z := signed digits Z.opp s.

Definition parse_unsigned_dec (s : string) : option dec :=
  match PyStr.split_on "." s with
  | [i] => n ← digits i; Some {| mant := n; expo := 0 |}
  | [i; f] =>
      n ← digits i; m ← digits f;
      Some {| mant := n * 10 ^ Z.of_nat (String.length f) + m;
              expo := String.length f |}
  | _ => None
  end.

Definition parse_dec (s : string) : option dec :=
  signed parse_unsigned_dec
    (fun d => {| mant := - mant d; expo := expo d |}) s.

Definition mul (a b : dec) : dec :=
  {| mant := mant a * mant b; expo := (expo a + expo b)%nat |}.

Definition round_half_even (num den : Z) : Z :=
  let q := num / den in
  let r := num mod den in
  if 2 * r <? den then q
  else if den <? 2 * r then q + 1
  else if Z.even q then q else q + 1.

Definition fixed2 (d : dec) : string :=
  let n := round_half_even (mant d * 100) (10 ^ Z.of_nat (expo d)) in
  let a := Z.abs n in
  (if n <? 0 then "-" else "") +:+ PyStr.of_int (a / 100) +:+ "."
    +:+ zfill 2 (PyStr.of_int (a mod 100)).

Definition builtins : Builtins := {|
  pyfloat := dec;
  int_of_str := parse_int;
  float_of_str := parse_dec;
  fmul := mul;
  f1000 := {| mant := 1000; expo := 0 |};
  format_2f := fixed2;
|}.

(** An SDK whose calls all succeed. *)
Definition sdk : AzureSdk := {|
  service_client := string;
  blob_client := string * string;
  from_connection_string := fun s => Ret s;
  new_service_client := fun url _ => Ret url;
  get_blob_client := fun _ container blob => Ret (container, blob);
  upload_blob := fun _ _ _ => Ret tt;
|}.

Definition finished (rc : Z) (out : string) : res CompletedProcess :=
  Ret {| returncode := rc; stdout := out; stderr := "" |}.

Definition nl : string := String PyStr.LF "".

(** A host whose wired interface is connected and whose wireless link is
    down. *)
Definition wired_host : executor := fun cmd _ =>
  match cmd with
  | ["ip"; "link"; "show"; "dev"; "eth0"] =>
      finished 0 ("2: eth0: <BROADCAST,MULTICAST,UP,LOWER_UP> mtu 1500 state UP mode DEFAULT"
                  +:+ nl)
  | ["ip"; "link"; "show"; "dev"; "wlan0"] =>
      finished 0 ("3: wlan0: <BROADCAST,MULTICAST> mtu 1500 state DOWN mode DEFAULT" +:+ nl)
  | ["ip"; "-4"; "addr"; "show"; "dev"; "eth0"] =>
      finished 0 ("2: eth0: <BROADCAST,MULTICAST,UP,LOWER_UP> mtu 1500" +:+ nl
                  +:+ "    inet 192.168.1.23/24 brd 192.168.1.255 scope global eth0" +:+ nl)
  | ["ip"; "route"; "show"; "default"; "dev"; "eth0"] =>
      finished 0 ("default via 192.168.1.1 proto dhcp metric 100" +:+ nl)
  | ["ping"; "-I"; "eth0"; "-c"; "1"; "-W"; "1"; "192.168.1.1"] =>
      finished 0 ("PING 192.168.1.1 (192.168.1.1) from 192.168.1.23 eth0: 56(84) bytes" +:+ nl
                  +:+ "64 bytes from 192.168.1.1: icmp_seq=1 ttl=64 time=7.23 ms" +:+ nl)
  | "curl" :: "--interface" :: "eth0" :: "-I" :: _ => finished 0 "200 0.120"
  | "curl" :: "--interface" :: "eth0" :: "-L" :: _ => finished 0 ("203.0.113.7" +:+ nl)
  | _ => Raise (OtherError "timed out")
  end.

(** A host with no link on either interface. *)
Definition offline_host : executor := fun cmd _ =>
  match cmd with
  | "ip" :: "link" :: _ => finished 0 ("2: eth0: <BROADCAST,MULTICAST> state DOWN" +:+ nl)
  | _ => finished 1 ""
  end.

Definition noon : date := {| year := 2024; month := 3; day := 7 |}.

Definition wired_tick : tick_input :=
  {| clock_now := "2024-03-07T12:00:00"; clock_today := noon; run := wired_host |}.

Definition offline_tick : tick_input :=
  {| clock_now := "2024-03-07T12:00:30"; clock_today := noon; run := offline_host |}.

Definition url : string := "https://example.org".

Definition boot : machine := {| files := ∅; trace := [] |}.

End Sample.

(* ===================================================================== *)
(** ** Vocabulary for the properties of the whole program *)
(* ===================================================================== *)

(** Every character of a text passes a test. *)
Fixpoint all_chars (ok : ascii -> bool) (s : string) : bool :=
  match s with
  | EmptyString => true
  | String c s' => ok c && all_chars ok s'
  end.

Definition not_blank (c : ascii) : bool := negb (PyStr.is_space c).



(** The overall flag of the tick that reads [inp]. *)
Definition healthy_tick `{Builtins} (URL2CHECK : string) (inp : tick_input) : bool :=
  or_healthy IFACES (fun i => iface_ok (check_iface_stages URL2CHECK (run inp) i)).

(** The row of the tick that reads [inp]. *)
Definition tick_row_of `{Builtins} (URL2CHECK : string) (inp : tick_input) : dict :=
  match tick_row URL2CHECK (run inp) (clock_now inp) with
  | Ret (_, _, row) => row
  | Raise _ => []
  end.

(** Whether the environment names a container, as [azure_upload] tests it. *)
Definition container_set (environ : gmap string string) : bool :=
  PyStr.truthy (PyStr.strip (default "" (environ !! "AZURE_CONTAINER"))).

(** The audit line of a healthy tick whose upload was refused for want of a
    container. *)
Definition refused_line `{Builtins} (URL2CHECK : string) (inp : tick_input) : string :=
  audit_line (clock_now inp) ("netmon_" +:+ isoformat (clock_today inp) +:+ ".csv")
    true
    (first_healthy IFACES
       (fun i => iface_ok (check_iface_stages URL2CHECK (run inp) i)))
    false "AZURE_CONTAINER not set".

(** What a tick that runs to its end does to the outside: it prints where
    the row goes, calls the uploader if it is healthy and is refused, and
    sleeps. *)
Definition tick_events `{Builtins} (URL2CHECK : string) (log_dir : Path)
    (inp : tick_input) : list event :=
  let csv_path := log_path_for_today log_dir (clock_today inp) in
  [Printed (clock_now inp +:+ " - add results to " +:+ path_str csv_path)]
    ++ (if healthy_tick URL2CHECK inp
        then [UploadCalled csv_path; UploadReturned false "AZURE_CONTAINER not set"]
        else [])
    ++ [Slept INTERVAL_SECONDS].

(** A date as [datetime.date] can hold one. *)
Definition valid_date (d : date) : Prop :=
  1 <= year d <= 9999 /\ 1 <= month d <= 12 /\ 1 <= day d <= 31.

(** A number padded to [width] has that width and reads back as itself. *)
Definition reads_back (width : nat) (n : nat) : bool :=
  (String.length (zfill width (PyStr.of_int (Z.of_nat n))) =? width)%nat
  && bool_decide (Sample.digits_go 0 (zfill width (PyStr.of_int (Z.of_nat n)))
                  = Some (Z.of_nat n)).

(** More sample hosts. *)
Module Hosts.

(** The wired interface has an address and a route, and its gateway does
    not answer. *)
Definition silent_gateway : executor := fun cmd _ =>
  match cmd with
  | ["ip"; "link"; "show"; "dev"; "eth0"] =>
      Sample.finished 0 ("2: eth0: <BROADCAST,MULTICAST,UP,LOWER_UP> state UP" +:+ Sample.nl)
  | ["ip"; "-4"; "addr"; "show"; "dev"; "eth0"] =>
      Sample.finished 0 ("    inet 192.168.1.23/24 brd 192.168.1.255 scope global eth0"
                         +:+ Sample.nl)
  | ["ip"; "route"; "show"; "default"; "dev"; "eth0"] =>
      Sample.finished 0 ("default via 192.168.1.1 proto dhcp metric 100" +:+ Sample.nl)
  | _ => Sample.finished 1 ""
  end.

(** The same host, with a [curl] that would answer. *)
Definition silent_gateway_open_web : executor := fun cmd t =>
  if bool_decide (head cmd = Some "curl") then Sample.finished 0 "200 0.120"
  else silent_gateway cmd t.

Definition next_day : date := {| year := 2024; month := 3; day := 8 |}.

Definition later_tick : tick_input :=
  {| clock_now := "2024-03-07T12:01:00"; clock_today := Sample.noon;
     run := Sample.wired_host |}.

(** An environment that names a container and no credential. *)
Definition configured : gmap string string := {[ "AZURE_CONTAINER" := "netmon" ]}.

Definition notes : Path := ["log"; "notes.txt"].

(** A machine that already holds a file next to the logs. *)
Definition used : machine :=
  {| files := {[ notes := "keep me" ]}; trace := [] |}.

End Hosts.

(* ===================================================================== *)
(** * Running the model on sample command output *)
(* ===================================================================== *)

Example strip_sample :
  PyStr.strip ("  200 0.120" +:+ String PyStr.LF "") = "200 0.120".
Proof. reflexivity. Qed.
Example split_sample :
  PyStr.split "default via 192.168.1.1 dev eth0  proto dhcp"
  = ["default"; "via"; "192.168.1.1"; "dev"; "eth0"; "proto"; "dhcp"].
Proof. reflexivity. Qed.
Example split_on_sample :
  PyStr.split_on "time=" "64 bytes: icmp_seq=1 ttl=64 time=7.23 ms"
  = ["64 bytes: icmp_seq=1 ttl=64 "; "7.23 ms"].
Proof. reflexivity. Qed.
Example split_on_slash : PyStr.split_on "/" "192.168.1.23/24" = ["192.168.1.23"; "24"].
Proof. reflexivity. Qed.
Example splitlines_sample :
  PyStr.splitlines ("a" +:+ String PyStr.CR (String PyStr.LF ("b" +:+ String PyStr.LF "")))
  = ["a"; "b"].
Proof. reflexivity. Qed.
Example splitlines_blank :
  PyStr.splitlines (String PyStr.LF (String PyStr.LF "x")) = [""; ""; "x"].
Proof. reflexivity. Qed.
Example contains_sample : PyStr.contains "state UP" "2: eth0: <BROADCAST> state UP mode" = true.
Proof. reflexivity. Qed.


Example wired_eth0 :
  check_iface (H := Sample.builtins) Sample.url Sample.wired_host "eth0"
  = [ ("iface_up", VInt 1); ("iface_ipv4", VStr "192.168.1.23");
      ("gateway", VStr "192.168.1.1"); ("local_ok", VInt 1);
      ("gateway_rtt_ms", VStr "7.23"); ("nos_ok", VInt 1); ("nos_status", VInt 200);
      ("nos_response_ms", VStr "120.00"); ("public_ip", VStr "203.0.113.7");
      ("iface_ok", VInt 1) ].
Proof. vm_compute. reflexivity. Qed.

Example wired_wlan0 :
  check_iface (H := Sample.builtins) Sample.url Sample.wired_host "wlan0"
  = [ ("iface_up", VInt 0); ("iface_ipv4", VStr ""); ("gateway", VStr "");
      ("local_ok", VInt 0); ("gateway_rtt_ms", VStr ""); ("nos_ok", VInt 0);
      ("nos_status", VStr ""); ("nos_response_ms", VStr ""); ("public_ip", VStr "");
      ("iface_ok", VInt 0) ].
Proof. vm_compute. reflexivity. Qed.

Example head_200 :
  curl_head_via_iface (H := Sample.builtins) Sample.wired_host "eth0" Sample.url 6
  = (true, Some {| Sample.mant := 120000; Sample.expo := 3 |}, Some 200).
Proof. vm_compute. reflexivity. Qed.

(** A 404 answer is a reachable endpoint; a 1xx answer is not, and keeps its
    status and latency. *)
Example head_404 :
  curl_head_via_iface (H := Sample.builtins)
    (fun _ _ => Sample.finished 0 "404 0.050") "eth0" Sample.url 6
  = (true, Some {| Sample.mant := 50000; Sample.expo := 3 |}, Some 404).
Proof. vm_compute. reflexivity. Qed.

Example head_100 :
  curl_head_via_iface (H := Sample.builtins)
    (fun _ _ => Sample.finished 0 "100 0.050") "eth0" Sample.url 6
  = (false, Some {| Sample.mant := 50000; Sample.expo := 3 |}, Some 100).
Proof. vm_compute. reflexivity. Qed.

Example head_garbled :
  curl_head_via_iface (H := Sample.builtins)
    (fun _ _ => Sample.finished 0 "200 fast") "eth0" Sample.url 6
  = (false, None, None).
Proof. vm_compute. reflexivity. Qed.

Example head_timed_out :
  curl_head_via_iface (H := Sample.builtins)
    (fun _ _ => Sample.finished 28 "000 6.001") "eth0" Sample.url 6
  = (false, None, None).
Proof. vm_compute. reflexivity. Qed.

(** A healthy tick on a host whose environment names a container: the row
    is in the day's file, the uploader was called, and the tick ends on the
    exception. *)
Example configured_tick :
  let out := tick (H := Sample.builtins) (H0 := Sample.sdk) Sample.url "" ""
               {[ "AZURE_CONTAINER" := "netmon" ]} LOG_DIR Sample.wired_tick Sample.boot in
  out.1 = Raise (NameError "AZURE_ACCOUNT_DEFAULT") /\
  trace out.2
  = [ Printed "2024-03-07T12:00:00 - add results to log/netmon_2024-03-07.csv";
      UploadCalled ["log"; "netmon_2024-03-07.csv"] ] /\
  is_Some (files out.2 !! ["log"; "netmon_2024-03-07.csv"]) /\
  files out.2 !! ["log"; "netmon_upload.log"] = None.
Proof. vm_compute. repeat split; eauto. Qed.

(** A tick with no healthy interface writes its row and nothing else. *)
Example offline_tick_trace :
  let out := tick (H := Sample.builtins) (H0 := Sample.sdk) Sample.url "" ""
               ∅ LOG_DIR Sample.offline_tick Sample.boot in
  out.1 = Ret tt /\
  trace out.2
  = [ Printed "2024-03-07T12:00:30 - add results to log/netmon_2024-03-07.csv";
      Slept 30 ] /\
  files out.2 !! ["log"; "netmon_upload.log"] = None.
Proof. vm_compute. repeat split. Qed.

(* ===================================================================== *)
(** * Text lemmas *)
(* ===================================================================== *)

Lemma string_app_assoc (a b c : string) : (a +:+ b) +:+ c = a +:+ (b +:+ c).
Proof.
  induction a as [|x a IH]; [reflexivity|].
  change (String x ((a +:+ b) +:+ c) = String x (a +:+ b +:+ c)). now f_equal.
Qed.

Lemma string_app_nil_r (a : string) : a +:+ "" = a.
Proof.
  induction a as [|x a IH]; [reflexivity|].
  change (String x (a +:+ "") = String x a). now f_equal.
Qed.

Lemma prefix_app (a b : string) : String.prefix a (a +:+ b) = true.
Proof.
  induction a as [|x a IH]; simpl.
  - now destruct b.
  - destruct (ascii_dec x x) as [_|Hne]; [exact IH | now destruct Hne].
Qed.

Lemma contains_prefix (sub s : string) :
  String.prefix sub s = true -> PyStr.contains sub s = true.
Proof. intros Hp. destruct s; cbn [PyStr.contains]; now rewrite Hp. Qed.

(** A text holds every piece it was assembled around. *)
Lemma contains_app (sub a b : string) : PyStr.contains sub (a +:+ sub +:+ b) = true.
Proof.
  induction a as [|x a IH].
  - apply contains_prefix. change (String.prefix sub (sub +:+ b) = true).
    apply prefix_app.
  - change (String x a +:+ sub +:+ b) with (String x (a +:+ sub +:+ b)).
    cbn [PyStr.contains]. rewrite IH. apply orb_true_r.
Qed.

(* ===================================================================== *)
(** * The staged evaluation of one interface *)
(* ===================================================================== *)

Section EvaluatorFacts.
Context `{Builtins}.
Variable URL2CHECK : string.
Variable run : executor.

(** A failed ping carries no round-trip time. *)
Lemma ping_failed_no_rtt iface host t :
  (ping_via_iface run iface host t).1 = false ->
  (ping_via_iface run iface host t).2 = None.
Proof.
  unfold ping_via_iface.
  destruct (run _ _) as [p|e]; simpl; [|reflexivity].
  destruct (returncode p =? 0); simpl; [discriminate | reflexivity].
Qed.

Lemma int_of_bool_0 b : int_of_bool b = 0 <-> b = false.
Proof. destruct b; simpl; split; congruence. Qed.

Lemma int_of_bool_1 b : bool_decide (VInt (int_of_bool b) = VInt 1) = b.
Proof. now destruct b. Qed.

(** The stage variables of [check_iface], stage by stage. *)
Lemma stages_up_false iface :
  up (check_iface_stages URL2CHECK run iface) = false ->
  ip4 (check_iface_stages URL2CHECK run iface) = "".
Proof.
  unfold check_iface_stages.
  destruct (iface_is_up run iface); [|intros _].
  - repeat (match goal with |- context [let '(_, _) := ?x in _] => destruct x end);
      simpl; discriminate.
  - now simpl.
Qed.

Lemma stages_no_ip4 iface :
  ip4 (check_iface_stages URL2CHECK run iface) = "" ->
  gw (check_iface_stages URL2CHECK run iface) = "".
Proof.
  unfold check_iface_stages.
  set (a := if iface_is_up run iface then iface_ipv4 run iface else "").
  destruct a as [|c a]; [|
    repeat (match goal with |- context [let '(_, _) := ?x in _] => destruct x end);
    simpl; discriminate].
  now simpl.
Qed.

Lemma stages_no_gw iface :
  gw (check_iface_stages URL2CHECK run iface) = "" ->
  local_ok (check_iface_stages URL2CHECK run iface) = false /\
  gw_rtt (check_iface_stages URL2CHECK run iface) = None.
Proof.
  unfold check_iface_stages.
  set (a := if iface_is_up run iface then iface_ipv4 run iface else "").
  set (g := if PyStr.truthy a then gateway_for_iface run iface else "").
  destruct g as [|c g]; [|
    repeat (match goal with |- context [let '(_, _) := ?x in _] => destruct x end);
    simpl; discriminate].
  now simpl.
Qed.

Lemma stages_local_failed iface :
  local_ok (check_iface_stages URL2CHECK run iface) = false ->
  gw_rtt (check_iface_stages URL2CHECK run iface) = None /\
  nos_ok (check_iface_stages URL2CHECK run iface) = false /\
  nos_code (check_iface_stages URL2CHECK run iface) = None /\
  nos_ms (check_iface_stages URL2CHECK run iface) = None.
Proof.
  unfold check_iface_stages.
  set (a := if iface_is_up run iface then iface_ipv4 run iface else "").
  set (g := if PyStr.truthy a then gateway_for_iface run iface else "").
  destruct (PyStr.truthy g).
  - pose proof (ping_failed_no_rtt iface g 1) as Hp.
    destruct (ping_via_iface run iface g 1) as [[] rtt]; simpl in *.
    + destruct (curl_head_via_iface run iface URL2CHECK 6) as [[? ?] ?]; simpl.
      discriminate.
    + intros _. now rewrite Hp.
  - now simpl.
Qed.

Lemma stages_remote_failed iface :
  nos_ok (check_iface_stages URL2CHECK run iface) = false ->
  public_ip (check_iface_stages URL2CHECK run iface) = "".
Proof.
  unfold check_iface_stages.
  set (a := if iface_is_up run iface then iface_ipv4 run iface else "").
  set (g := if PyStr.truthy a then gateway_for_iface run iface else "").
  destruct (if PyStr.truthy g then ping_via_iface run iface g 1 else (false, None))
    as [[] rtt]; simpl; [|reflexivity].
  destruct (curl_head_via_iface run iface URL2CHECK 6) as [[[] ?] ?]; simpl;
    [discriminate | reflexivity].
Qed.

Lemma stages_healthy iface :
  iface_ok (check_iface_stages URL2CHECK run iface)
  = local_ok (check_iface_stages URL2CHECK run iface)
    && nos_ok (check_iface_stages URL2CHECK run iface).
Proof.
  unfold check_iface_stages.
  repeat (match goal with |- context [let '(_, _) := ?x in _] => destruct x end).
  simpl. unfold py_and. now destruct b.
Qed.

End EvaluatorFacts.

Section ResultFacts.
Context `{Builtins}.
Variable URL2CHECK : string.
Variable run : executor.

(** ** C1 *)

(** C1. Staged dependency of the result [check_iface] returns: a field is
    empty, zero or absent whenever the stage before it did not run or
    failed. With the link down, address, gateway and public address are
    empty and both reachability flags are 0; without an address there is no
    gateway; without a gateway the local flag is 0 and there is no
    round-trip time; with the local flag at 0 the remote flag is 0 and
    status and latency are absent; with the remote flag at 0 the public
    address is empty. *)
Theorem check_iface_staged_dependency (iface : string) :
  let r := check_iface URL2CHECK run iface in
  (dict_get r "iface_up" = Some (VInt 0) ->
     dict_get r "iface_ipv4" = Some (VStr "") /\
     dict_get r "gateway" = Some (VStr "") /\
     dict_get r "local_ok" = Some (VInt 0) /\
     dict_get r "nos_ok" = Some (VInt 0) /\
     dict_get r "public_ip" = Some (VStr "")) /\
  (dict_get r "iface_ipv4" = Some (VStr "") ->
     dict_get r "gateway" = Some (VStr "")) /\
  (dict_get r "gateway" = Some (VStr "") ->
     dict_get r "local_ok" = Some (VInt 0) /\
     dict_get r "gateway_rtt_ms" = Some (VStr "")) /\
  (dict_get r "local_ok" = Some (VInt 0) ->
     dict_get r "gateway_rtt_ms" = Some (VStr "") /\
     dict_get r "nos_ok" = Some (VInt 0) /\
     dict_get r "nos_status" = Some (VStr "") /\
     dict_get r "nos_response_ms" = Some (VStr "")) /\
  (dict_get r "nos_ok" = Some (VInt 0) ->
     dict_get r "public_ip" = Some (VStr "")).
Proof.
  cbv zeta. unfold check_iface.
  set (c := check_iface_stages URL2CHECK run iface).
  pose proof (stages_up_false URL2CHECK run iface) as Hup.
  pose proof (stages_no_ip4 URL2CHECK run iface) as Hip.
  pose proof (stages_no_gw URL2CHECK run iface) as Hgw.
  pose proof (stages_local_failed URL2CHECK run iface) as Hloc.
  pose proof (stages_remote_failed URL2CHECK run iface) as Hrem.
  fold c in Hup, Hip, Hgw, Hloc, Hrem.
  assert (Hfrom_gw : gw c = "" ->
            local_ok c = false /\ gw_rtt c = None /\ nos_ok c = false /\
            nos_code c = None /\ nos_ms c = None /\ public_ip c = "").
  { intros Hg. destruct (Hgw Hg) as [Hl Hr]. destruct (Hloc Hl) as (_ & Hn & Hc & Hm).
    auto 10. }
  cbn [result_dict dict_get String.eqb Ascii.eqb Bool.eqb].
  refine (conj _ (conj _ (conj _ (conj _ _))));
    intros Hyp; injection Hyp as Hyp; try apply int_of_bool_0 in Hyp.
  - destruct (Hfrom_gw (Hip (Hup Hyp))) as (-> & _ & -> & _ & _ & ->).
    now rewrite (Hup Hyp), (Hip (Hup Hyp)).
  - now rewrite (Hip Hyp).
  - now destruct (Hfrom_gw Hyp) as (-> & -> & _).
  - now destruct (Hloc Hyp) as (-> & -> & -> & ->).
  - now rewrite (Hrem Hyp).
Qed.

(** ** C9 *)

(** C9. The healthy flag of an interface result is the conjunction of its
    local and remote flags: for the variable [iface_ok] that [check_iface]
    computes, and for the [iface_ok] field of the dictionary it returns,
    which is 1 exactly when [local_ok] and [nos_ok] are both 1. *)
Theorem healthy_is_local_and_remote (iface : string) :
  let c := check_iface_stages URL2CHECK run iface in
  let r := check_iface URL2CHECK run iface in
  iface_ok c = local_ok c && nos_ok c /\
  dict_get r "iface_ok"
  = Some (VInt (int_of_bool
      (bool_decide (dict_get r "local_ok" = Some (VInt 1))
       && bool_decide (dict_get r "nos_ok" = Some (VInt 1))))).
Proof.
  cbv zeta. unfold check_iface.
  pose proof (stages_healthy URL2CHECK run iface) as Hh.
  set (c := check_iface_stages URL2CHECK run iface) in *.
  split; [exact Hh|].
  cbn [result_dict dict_get String.eqb Ascii.eqb Bool.eqb].
  rewrite Hh. now destruct (local_ok c), (nos_ok c).
Qed.

(** The fields of a result do not depend on what the probes found. *)
Lemma check_iface_keys (iface : string) :
  dict_keys (check_iface URL2CHECK run iface) = RESULT_FIELDS.
Proof. reflexivity. Qed.

End ResultFacts.

(* ===================================================================== *)
(** * The HTTP HEAD probe *)
(* ===================================================================== *)

Section HeadProbe.
Context `{Builtins}.
Variable run : executor.
Variables iface url : string.
Variable timeout_s : Z.

Let cmd := curl_head_cmd iface url timeout_s.
Let probe := curl_head_via_iface run iface url timeout_s.

(** The probe, case by case on what [curl] did. *)
Lemma curl_head_raised e :
  run cmd (timeout_s + 2) = Raise e -> probe = (false, None, None).
Proof. unfold probe, curl_head_via_iface; fold cmd. now intros ->. Qed.

Lemma curl_head_nonzero p :
  run cmd (timeout_s + 2) = Ret p -> returncode p <> 0 ->
  probe = (false, None, None).
Proof.
  unfold probe, curl_head_via_iface; fold cmd. intros -> Hrc. simpl.
  destruct (Z.eqb_spec (returncode p) 0) as [E|_]; [now destruct Hrc | reflexivity].
Qed.

Lemma curl_head_fields p :
  run cmd (timeout_s + 2) = Ret p -> returncode p = 0 ->
  length (PyStr.split (PyStr.strip (stdout p))) <> 2%nat ->
  probe = (false, None, None).
Proof.
  unfold probe, curl_head_via_iface; fold cmd. intros -> Hrc Hlen. simpl.
  rewrite Hrc. simpl.
  destruct (Nat.eqb_spec (length (PyStr.split (PyStr.strip (stdout p)))) 2) as [E|_];
    [now destruct Hlen | reflexivity].
Qed.

Lemma curl_head_two_fields p code_str t_str :
  run cmd (timeout_s + 2) = Ret p -> returncode p = 0 ->
  PyStr.split (PyStr.strip (stdout p)) = [code_str; t_str] ->
  probe = match int_of_str code_str, float_of_str t_str with
          | Some code, Some t_sec =>
              ((200 <=? code) && (code <? 600), Some (fmul t_sec f1000), Some code)
          | _, _ => (false, None, None)
          end.
Proof.
  unfold probe, curl_head_via_iface; fold cmd. intros -> Hrc Hsplit. simpl.
  rewrite Hrc, Hsplit. simpl. unfold py_int, py_float.
  destruct (int_of_str code_str) as [code|]; simpl; [|reflexivity].
  destruct (float_of_str t_str) as [t_sec|]; reflexivity.
Qed.

(** C3. The HEAD probe answers [ok = true] exactly when [curl] ran to
    completion with exit status 0, printed two blank-separated fields
    that read as an integer status and a float time, and the status lies
    in [200, 600) (so a 4xx or 5xx answer counts as reachable, with its
    latency and status reported). When [curl] could not be run, exited
    with another status, or printed something else than two such fields,
    the probe answers [ok = false] with no latency and no status. *)
Theorem curl_head_ok_iff :
  (probe.1.1 = true <->
     exists p code_str t_str code t_sec,
       run cmd (timeout_s + 2) = Ret p /\ returncode p = 0 /\
       PyStr.split (PyStr.strip (stdout p)) = [code_str; t_str] /\
       int_of_str code_str = Some code /\ float_of_str t_str = Some t_sec /\
       200 <= code < 600) /\
  (forall p code_str t_str code t_sec,
     run cmd (timeout_s + 2) = Ret p -> returncode p = 0 ->
     PyStr.split (PyStr.strip (stdout p)) = [code_str; t_str] ->
     int_of_str code_str = Some code -> float_of_str t_str = Some t_sec ->
     200 <= code < 600 ->
     probe = (true, Some (fmul t_sec f1000), Some code)) /\
  ((exists e, run cmd (timeout_s + 2) = Raise e) \/
   (exists p, run cmd (timeout_s + 2) = Ret p /\
      (returncode p <> 0 \/
       length (PyStr.split (PyStr.strip (stdout p))) <> 2%nat \/
       exists code_str t_str,
         PyStr.split (PyStr.strip (stdout p)) = [code_str; t_str] /\
         (int_of_str code_str = None \/ float_of_str t_str = None))) ->
   probe = (false, None, None)).
Proof.
  split; [split|split].
  - (* ok = true forces every condition *)
    intros Hok.
    destruct (run cmd (timeout_s + 2)) as [p|e] eqn:Hrun;
      [|now rewrite (curl_head_raised e Hrun) in Hok].
    destruct (Z.eq_dec (returncode p) 0) as [Hrc|Hrc];
      [|now rewrite (curl_head_nonzero p Hrun Hrc) in Hok].
    destruct (PyStr.split (PyStr.strip (stdout p))) as [|a [|b [|x l]]] eqn:Hsplit;
      try (rewrite (curl_head_fields p Hrun Hrc) in Hok;
           [discriminate | rewrite Hsplit; simpl; lia]).
    rewrite (curl_head_two_fields p a b Hrun Hrc Hsplit) in Hok.
    destruct (int_of_str a) as [code|] eqn:Hint; [|discriminate].
    destruct (float_of_str b) as [t_sec|] eqn:Hfl; [|discriminate].
    simpl in Hok. apply andb_true_iff in Hok as [Hlo Hhi].
    exists p, a, b, code, t_sec. repeat split; auto; lia.
  - (* every condition gives ok = true *)
    intros (p & a & b & code & t_sec & Hrun & Hrc & Hsplit & Hint & Hfl & Hlo & Hhi).
    rewrite (curl_head_two_fields p a b Hrun Hrc Hsplit), Hint, Hfl. simpl.
    apply andb_true_iff. split; lia.
  - intros p a b code t_sec Hrun Hrc Hsplit Hint Hfl [Hlo Hhi].
    rewrite (curl_head_two_fields p a b Hrun Hrc Hsplit), Hint, Hfl.
    replace ((200 <=? code) && (code <? 600)) with true; [reflexivity|].
    symmetry. apply andb_true_iff. split; lia.
  - intros [[e Hrun] | (p & Hrun & [Hrc | [Hlen | (a & b & Hsplit & Hbad)]])].
    + exact (curl_head_raised e Hrun).
    + exact (curl_head_nonzero p Hrun Hrc).
    + destruct (Z.eq_dec (returncode p) 0) as [Hz|Hnz];
        [exact (curl_head_fields p Hrun Hz Hlen) | exact (curl_head_nonzero p Hrun Hnz)].
    + destruct (Z.eq_dec (returncode p) 0) as [Hz|Hnz];
        [|exact (curl_head_nonzero p Hrun Hnz)].
      rewrite (curl_head_two_fields p a b Hrun Hz Hsplit).
      destruct Hbad as [-> | ->]; [reflexivity|].
      now destruct (int_of_str a).
Qed.

End HeadProbe.

(* ===================================================================== *)
(** * Aggregation of a tick *)
(* ===================================================================== *)

Section AggregatorFacts.
Context `{Builtins}.
Variable URL2CHECK : string.
Variable run : executor.

(** The healthy flag of an interface in this tick. *)
Let healthy (iface : string) : bool :=
  iface_ok (check_iface_stages URL2CHECK run iface).

Lemma check_all_from (ifaces : list string) (m : gmap string dict) (i : string) :
  foldl (fun m iface => <[iface := check_iface URL2CHECK run iface]> m) m ifaces !! i
  = if bool_decide (i ∈ ifaces) then Some (check_iface URL2CHECK run i) else m !! i.
Proof.
  revert m. induction ifaces as [|j ifaces IH]; intros m; simpl; [reflexivity|].
  rewrite IH. destruct (decide (i = j)) as [->|Hne].
  - rewrite lookup_insert_eq.
    rewrite (bool_decide_eq_true_2 (j ∈ j :: ifaces)) by apply list_elem_of_here.
    now destruct (bool_decide (j ∈ ifaces)).
  - rewrite lookup_insert_ne by congruence.
    destruct (decide (i ∈ ifaces)) as [Hin|Hnin].
    + rewrite !bool_decide_eq_true_2; auto using list_elem_of_further.
    + rewrite !bool_decide_eq_false_2; auto.
      intros Hin. apply elem_of_cons in Hin as [?|?]; auto.
Qed.

(** The comprehension holds the result of every interface it ranged
    over. *)
Lemma check_all_lookup (ifaces : list string) (i : string) :
  i ∈ ifaces ->
  check_all URL2CHECK run ifaces !! i = Some (check_iface URL2CHECK run i).
Proof.
  intros Hin. unfold check_all. rewrite check_all_from.
  now rewrite bool_decide_eq_true_2.
Qed.

Lemma iface_ok_field (i : string) :
  dict_get (check_iface URL2CHECK run i) "iface_ok"
  = Some (VInt (int_of_bool (healthy i))).
Proof. reflexivity. Qed.

Lemma any_iface_ok_or (results : gmap string dict) (ifaces : list string) :
  (forall i, i ∈ ifaces -> results !! i = Some (check_iface URL2CHECK run i)) ->
  any_iface_ok results ifaces = Ret (or_healthy ifaces healthy).
Proof.
  induction ifaces as [|i ifaces IH]; intros Hres; [reflexivity|].
  cbn [any_iface_ok or_healthy foldr]. unfold results_item.
  rewrite (Hres i) by apply list_elem_of_here. cbn [of_option mbind res_bind].
  change (dict_item (check_iface URL2CHECK run i) "iface_ok")
    with (Ret (VInt (int_of_bool (healthy i)))).
  cbn [mbind res_bind]. rewrite int_of_bool_1. destruct (healthy i); [reflexivity|].
  rewrite IH; [reflexivity|]. intros j Hj. apply Hres. now apply list_elem_of_further.
Qed.

Lemma get_iface_ok_healthy (ifaces : list string) (i : string) :
  i ∈ ifaces -> get_iface_ok (check_all URL2CHECK run ifaces) i = healthy i.
Proof.
  intros Hin. unfold get_iface_ok. rewrite (check_all_lookup _ _ Hin).
  change (bool_decide (Some (VInt (int_of_bool (healthy i))) = Some (VInt 1))
          = healthy i).
  destruct (healthy i); reflexivity.
Qed.

Lemma flatten_fold (results : gmap string dict) (ifaces : list string) (row : dict) :
  (forall i, i ∈ ifaces -> results !! i = Some (check_iface URL2CHECK run i)) ->
  flatten results ifaces row
  = Ret (foldl (fun row i => add_columns i (check_iface URL2CHECK run i) row) row ifaces).
Proof.
  revert row. induction ifaces as [|i ifaces IH]; intros row Hres; [reflexivity|].
  cbn [flatten foldl]. unfold results_item.
  rewrite (Hres i) by apply list_elem_of_here. cbn [of_option mbind res_bind].
  apply IH. intros j Hj. apply Hres. now apply list_elem_of_further.
Qed.

Lemma dict_keys_set (d : dict) (k : string) (v : value) :
  dict_keys (dict_set d k v) = keys_set (dict_keys d) k.
Proof.
  induction d as [|[k' v'] d IH]; [reflexivity|].
  cbn [dict_set dict_keys fmap list_fmap keys_set fst].
  destruct (String.eqb k' k); [reflexivity|].
  cbn [fmap list_fmap fst]. f_equal. exact IH.
Qed.

Lemma dict_keys_add_columns (iface : string) (r row : dict) :
  dict_keys (add_columns iface r row)
  = foldl (fun ks k => keys_set ks (iface +:+ "_" +:+ k)) (dict_keys row) (dict_keys r).
Proof.
  unfold add_columns. revert row.
  induction r as [|[k v] r IH]; intros row; [reflexivity|].
  cbn [foldl dict_keys fmap list_fmap fst]. rewrite IH, dict_keys_set. reflexivity.
Qed.

Lemma dict_keys_flatten (ifaces : list string) (row : dict) :
  dict_keys (foldl (fun row i => add_columns i (check_iface URL2CHECK run i) row)
               row ifaces)
  = foldl (fun ks i => foldl (fun ks k => keys_set ks (i +:+ "_" +:+ k)) ks RESULT_FIELDS)
      (dict_keys row) ifaces.
Proof.
  revert row. induction ifaces as [|i ifaces IH]; intros row; [reflexivity|].
  cbn [foldl]. rewrite IH, dict_keys_add_columns. reflexivity.
Qed.

(** The tick never fails while it aggregates, and this is what it
    computes. *)
Lemma tick_row_eq (ts : string) :
  tick_row URL2CHECK run ts
  = Ret (or_healthy IFACES healthy,
         preferred_iface (check_all URL2CHECK run IFACES),
         foldl (fun row i => add_columns i (check_iface URL2CHECK run i) row)
           [ ("timestamp", VStr ts);
             ("overall_ok", VInt (int_of_bool (or_healthy IFACES healthy)));
             ("preferred_iface",
              VStr (preferred_iface (check_all URL2CHECK run IFACES))) ]
           IFACES).
Proof.
  unfold tick_row.
  rewrite any_iface_ok_or by (intros i Hi; now apply check_all_lookup).
  cbn [mbind res_bind].
  rewrite flatten_fold by (intros i Hi; now apply check_all_lookup).
  reflexivity.
Qed.

(** The two tests of [main], eth0 first, pick the first healthy interface
    of [IFACES]. *)
Lemma preferred_iface_first_healthy :
  preferred_iface (check_all URL2CHECK run IFACES) = first_healthy IFACES healthy.
Proof.
  unfold preferred_iface, first_healthy, IFACES.
  rewrite !(get_iface_ok_healthy ["eth0"; "wlan0"]) by set_solver.
  cbn [List.find]. destruct (healthy "eth0"); [reflexivity|].
  destruct (healthy "wlan0"); reflexivity.
Qed.

(** C8. In every tick the overall flag is the logical OR of the healthy
    flags of the configured interfaces, and the [overall_ok] column of the
    row is that flag as 0 or 1. *)
Theorem overall_ok_is_or (ts : string) :
  exists preferred row,
    tick_row URL2CHECK run ts
    = Ret (or_healthy IFACES
             (fun i => iface_ok (check_iface_stages URL2CHECK run i)),
           preferred, row) /\
    dict_get row "overall_ok"
    = Some (VInt (int_of_bool
         (or_healthy IFACES
            (fun i => iface_ok (check_iface_stages URL2CHECK run i))))).
Proof.
  eexists _, _. split; [apply tick_row_eq|]. reflexivity.
Qed.

(** C4. In every tick the preferred interface is the first interface of
    [IFACES], in its order, whose healthy flag is true, and the empty
    string when none is healthy; the [preferred_iface] column holds it. It
    is a function of the healthy flags alone. *)
Theorem preferred_is_first_healthy (ts : string) :
  exists overall row,
    tick_row URL2CHECK run ts
    = Ret (overall,
           first_healthy IFACES
             (fun i => iface_ok (check_iface_stages URL2CHECK run i)),
           row) /\
    dict_get row "preferred_iface"
    = Some (VStr (first_healthy IFACES
         (fun i => iface_ok (check_iface_stages URL2CHECK run i)))).
Proof.
  eexists _, _.
  split; [rewrite tick_row_eq, preferred_iface_first_healthy; reflexivity|].
  reflexivity.
Qed.

(** C10. The result of one interface always has the same ten fields in
    the same order, whatever the probes found, and so the flattened row of
    a tick always has the same columns in the same order: the three tick
    columns, then the ten fields of each interface of [IFACES] under its
    name. *)
Theorem fixed_row_schema (iface ts : string) :
  dict_keys (check_iface URL2CHECK run iface)
  = [ "iface_up"; "iface_ipv4"; "gateway"; "local_ok"; "gateway_rtt_ms"; "nos_ok";
      "nos_status"; "nos_response_ms"; "public_ip"; "iface_ok" ] /\
  exists overall preferred row,
    tick_row URL2CHECK run ts = Ret (overall, preferred, row) /\
    dict_keys row = row_columns IFACES.
Proof.
  split; [exact (check_iface_keys URL2CHECK run iface)|].
  eexists _, _, _. split; [apply tick_row_eq|].
  rewrite dict_keys_flatten. vm_compute. reflexivity.
Qed.

End AggregatorFacts.

(* ===================================================================== *)
(** * The daily log *)
(* ===================================================================== *)

Section DailyLog.
Implicit Types (fs : gmap Path string) (p q : Path) (row : dict).

Lemma file_append_lookup fs p text :
  file_append p text fs !! p = Some (default "" (fs !! p) +:+ text).
Proof. unfold file_append. apply lookup_insert_eq. Qed.

Lemma file_append_other fs p q text :
  p <> q -> file_append p text fs !! q = fs !! q.
Proof. intros Hne. unfold file_append. now apply lookup_insert_ne. Qed.

(** The first write creates the file: header, then the row. *)
Lemma append_row_new fs p row :
  fs !! p = None ->
  append_row p row fs !! p = Some (header_text row +:+ row_text row).
Proof.
  intros Hnone. unfold append_row, path_exists.
  rewrite bool_decide_eq_false_2 by (rewrite Hnone; apply is_Some_None).
  cbn [negb]. rewrite !file_append_lookup, Hnone. reflexivity.
Qed.

(** A later write leaves what the file holds and adds the row, and only
    the row, to its end. *)
Lemma append_row_existing fs p row (old : string) :
  fs !! p = Some old ->
  append_row p row fs !! p = Some (old +:+ row_text row).
Proof.
  intros Hsome. unfold append_row, path_exists.
  rewrite bool_decide_eq_true_2 by (rewrite Hsome; eauto).
  cbn [negb]. rewrite !file_append_lookup, Hsome. cbn [default from_option id].
  now rewrite string_app_nil_r.
Qed.

(** No other file is touched. *)
Lemma append_row_other fs p q row :
  p <> q -> append_row p row fs !! q = fs !! q.
Proof.
  intros Hne. unfold append_row.
  destruct (negb (path_exists fs p)); now rewrite !file_append_other.
Qed.

(** What the file holds after a write, whatever it held before. *)
Lemma append_row_lookup fs p row :
  append_row p row fs !! p
  = Some (match fs !! p with
          | Some old => old
          | None => header_text row
          end +:+ row_text row).
Proof.
  destruct (fs !! p) as [old|] eqn:E;
    [now apply append_row_existing | now apply append_row_new].
Qed.

Lemma append_rows_existing (rows : list dict) fs p (old : string) :
  fs !! p = Some old ->
  append_rows p rows fs !! p = Some (old +:+ String.concat "" (row_text <$> rows)).
Proof.
  revert fs old. induction rows as [|row rows IH]; intros fs old Hsome.
  - cbn. now rewrite string_app_nil_r.
  - cbn [append_rows foldl]. fold (append_rows p rows (append_row p row fs)).
    rewrite (IH _ _ (append_row_existing _ _ row _ Hsome)), string_app_assoc.
    f_equal. f_equal. destruct rows; cbn; [now rewrite string_app_nil_r | reflexivity].
Qed.

(** C5. When the day's file does not exist yet and [append_row] is
    called N times on it (nothing deleting it in between), the file holds
    one header, the field names of the first row, written before the first
    data row, followed by the N data rows in the order of the calls; each
    call leaves the text already in the file as it is and adds its row at
    the end. *)
Theorem append_row_header_once fs p (first : dict) (rest : list dict) :
  fs !! p = None ->
  append_rows p (first :: rest) fs !! p
  = Some (header_text first +:+ String.concat "" (row_text <$> first :: rest)) /\
  length (row_text <$> first :: rest) = length (first :: rest) /\
  forall (k : nat) (row : dict),
    (first :: rest) !! S k = Some row ->
    exists before,
      append_rows p (take (S k) (first :: rest)) fs !! p = Some before /\
      append_rows p (take (S (S k)) (first :: rest)) fs !! p
      = Some (before +:+ row_text row).
Proof.
  intros Hnone. split; [|split].
  - cbn [append_rows foldl]. fold (append_rows p rest (append_row p first fs)).
    rewrite (append_rows_existing rest _ p _ (append_row_new _ _ first Hnone)).
    rewrite string_app_assoc. f_equal. f_equal.
    destruct rest; cbn; [now rewrite string_app_nil_r | reflexivity].
  - now rewrite length_fmap.
  - intros k row Hk.
    assert (Hex : exists before,
              append_rows p (take (S k) (first :: rest)) fs !! p = Some before).
    { cbn [take append_rows foldl].
      fold (append_rows p (take k rest) (append_row p first fs)).
      rewrite (append_rows_existing _ _ p _ (append_row_new _ _ first Hnone)).
      eauto. }
    destruct Hex as [before Hbefore]. exists before. split; [exact Hbefore|].
    rewrite (take_S_r _ _ _ Hk). unfold append_rows in *. rewrite foldl_app.
    cbn [foldl]. now apply append_row_existing.
Qed.

End DailyLog.

Lemma append_row_header_once_witness :
  (∅ : gmap Path string) !! ["log"; "netmon_2024-03-07.csv"] = None /\
  append_rows ["log"; "netmon_2024-03-07.csv"]
    [ [("timestamp", VStr "12:00:00"); ("overall_ok", VInt 0)];
      [("timestamp", VStr "12:00:30"); ("overall_ok", VInt 1)] ] ∅
    !! ["log"; "netmon_2024-03-07.csv"]
  = Some ("timestamp,overall_ok" +:+ Csv.lineterminator
          +:+ "12:00:00,0" +:+ Csv.lineterminator
          +:+ "12:00:30,1" +:+ Csv.lineterminator).
Proof.
  split; [reflexivity|].
  exact (proj1 (append_row_header_once ∅ ["log"; "netmon_2024-03-07.csv"]
                  [("timestamp", VStr "12:00:00"); ("overall_ok", VInt 0)]
                  [ [("timestamp", VStr "12:00:30"); ("overall_ok", VInt 1)] ]
                  eq_refl)).
Defined.

(* ===================================================================== *)
(** * The upload notifier *)
(* ===================================================================== *)

Section UploadFacts.
Context `{AzureSdk}.
Variables URL2CHECK AZURE_CONTAINER AZURE_STORAGE_CONNECTION_STRING : string.
Variable environ : gmap string string.

Lemma azure_account_default_unbound :
  load_global URL2CHECK AZURE_CONTAINER AZURE_STORAGE_CONNECTION_STRING
    "AZURE_ACCOUNT_DEFAULT"
  = Raise (NameError "AZURE_ACCOUNT_DEFAULT").
Proof. reflexivity. Qed.

(** Without a container name the upload is refused with a message. *)
Lemma azure_upload_no_container fs file :
  PyStr.strip (getenv environ "AZURE_CONTAINER" "") = "" ->
  azure_upload URL2CHECK AZURE_CONTAINER AZURE_STORAGE_CONNECTION_STRING environ fs file
  = Ret (false, "AZURE_CONTAINER not set").
Proof. intros Hc. unfold azure_upload. now rewrite Hc. Qed.

(** With a container name the upload stops at the unbound name, before its
    [try] block, whatever the credentials and the SDK. *)
Lemma azure_upload_with_container fs file :
  PyStr.strip (getenv environ "AZURE_CONTAINER" "") <> "" ->
  azure_upload URL2CHECK AZURE_CONTAINER AZURE_STORAGE_CONNECTION_STRING environ fs file
  = Raise (NameError "AZURE_ACCOUNT_DEFAULT").
Proof.
  intros Hc. unfold azure_upload.
  destruct (PyStr.strip (getenv environ "AZURE_CONTAINER" "")); [now destruct Hc|].
  reflexivity.
Qed.

(** What the upload can return when it returns. *)
Lemma azure_upload_returns fs file ok msg :
  azure_upload URL2CHECK AZURE_CONTAINER AZURE_STORAGE_CONNECTION_STRING environ fs file
  = Ret (ok, msg) ->
  ok = false /\ msg = "AZURE_CONTAINER not set".
Proof.
  destruct (decide (PyStr.strip (getenv environ "AZURE_CONTAINER" "") = "")) as [Hc|Hc].
  - rewrite (azure_upload_no_container _ _ Hc). intros [= <- <-]. now split.
  - now rewrite (azure_upload_with_container _ _ Hc).
Qed.

End UploadFacts.

(** C2. The upload of a configured host escapes with an exception: with
    the container name set and no credential in the environment,
    [azure_upload] raises [NameError], where the specification has it return
    the pair [(False, "No AZURE_STORAGE_CONNECTION_STRING or
    AZURE_STORAGE_SAS_TOKEN set")]. *)
Theorem azure_upload_raises_name_error :
  azure_upload (H := Sample.sdk) Sample.url "" ""
    {[ "AZURE_CONTAINER" := "netmon" ]} ∅ ["log"; "netmon_2024-03-07.csv"]
  = Raise (NameError "AZURE_ACCOUNT_DEFAULT").
Proof. vm_compute. reflexivity. Qed.

(* ===================================================================== *)
(** * One tick of the scheduler loop *)
(* ===================================================================== *)

Lemma log_name_not_audit_name (d : string) :
  "netmon_" +:+ d +:+ ".csv" <> "netmon_upload.log".
Proof.
  intros Heq.
  do 11 (destruct d as [|? d]; [cbn in Heq; discriminate Heq|]).
  cbn in Heq. discriminate Heq.
Qed.

Lemma path_join_inj (p : Path) (a b : string) :
  path_join p a = path_join p b -> a = b.
Proof. unfold path_join. intros Heq. apply app_inv_head in Heq. congruence. Qed.

Lemma path_name_join (p : Path) (a : string) : path_name (path_join p a) = a.
Proof. unfold path_name, path_join. apply List.last_last. Qed.

Lemma log_path_not_audit_path (log_dir : Path) (today : date) :
  log_path_for_today log_dir today <> path_join log_dir "netmon_upload.log".
Proof.
  unfold log_path_for_today. intros Heq. apply path_join_inj in Heq.
  exact (log_name_not_audit_name _ Heq).
Qed.

Section TickFacts.
Context `{Builtins} `{AzureSdk}.
Variables URL2CHECK AZURE_CONTAINER AZURE_STORAGE_CONNECTION_STRING : string.
Variable environ : gmap string string.
Variable log_dir : Path.
Variable inp : tick_input.
Variable m : machine.

Let ts := clock_now inp.
Let healthy (iface : string) : bool :=
  iface_ok (check_iface_stages URL2CHECK (run inp) iface).
Let overall := or_healthy IFACES healthy.
Let preferred := first_healthy IFACES healthy.
Let csv_path := log_path_for_today log_dir (clock_today inp).
Let audit_path := path_join log_dir "netmon_upload.log".
Let out := tick URL2CHECK AZURE_CONTAINER AZURE_STORAGE_CONNECTION_STRING environ
             log_dir inp m.

Lemma tick_row_of_inp :
  exists row,
    tick_row URL2CHECK (run inp) ts = Ret (overall, preferred, row).
Proof.
  eexists. rewrite tick_row_eq, preferred_iface_first_healthy. reflexivity.
Qed.

(** The tick, step by step: the row is appended first; a healthy tick then
    calls the uploader and, when the call returns, writes the audit line; an
    exception of the uploader ends the tick after the append. *)
Lemma tick_steps (row : dict) :
  tick_row URL2CHECK (run inp) ts = Ret (overall, preferred, row) ->
  let fs1 := append_row csv_path row (files m) in
  let tr1 := trace m ++ [Printed (ts +:+ " - add results to " +:+ path_str csv_path)] in
  out =
    if overall then
      match azure_upload URL2CHECK AZURE_CONTAINER AZURE_STORAGE_CONNECTION_STRING
              environ fs1 csv_path with
      | Ret (ok, msg) =>
          (Ret tt,
           {| files := file_append audit_path
                         (audit_line ts (path_name csv_path) true preferred ok msg) fs1;
              trace := ((tr1 ++ [UploadCalled csv_path]) ++ [UploadReturned ok msg])
                         ++ [Slept INTERVAL_SECONDS] |})
      | Raise e =>
          (Raise e, {| files := fs1; trace := tr1 ++ [UploadCalled csv_path] |})
      end
    else (Ret tt, {| files := fs1; trace := tr1 ++ [Slept INTERVAL_SECONDS] |}).
Proof.
  intros Hrow. cbv zeta. unfold out, tick. fold ts. unfold lift at 1.
  unfold mbind at 1, M_bind at 1. rewrite Hrow. fold csv_path.
  destruct overall.
  - destruct (azure_upload _ _ _ _ _ _) as [[ok msg]|e] eqn:Hup;
      unfold mbind, M_bind, emit, update_files, get_files, lift, mret, M_ret;
      cbv beta iota zeta; cbn [files trace]; rewrite Hup; reflexivity.
  - reflexivity.
Qed.

Lemma first_healthy_in (ifaces : list string) (h : string -> bool) :
  or_healthy ifaces h = true -> first_healthy ifaces h ∈ ifaces.
Proof.
  unfold first_healthy. induction ifaces as [|i ifaces IH]; cbn; [discriminate|].
  destruct (h i); cbn; [intros _; apply list_elem_of_here|].
  intros Hor. apply list_elem_of_further. now apply IH.
Qed.

(** C6. In a tick the uploader is called exactly when the overall flag of
    the tick is true: with the flag false the tick makes no upload call,
    produces no upload outcome and leaves the audit log as it was. The row
    of the tick is appended to the day's file in every tick, before the
    upload and whatever the upload then does, its exception included. *)
Theorem upload_only_when_healthy :
  exists (row : dict) (evs : list event),
    tick_row URL2CHECK (run inp) (clock_now inp) = Ret (overall, preferred, row) /\
    trace out.2 = trace m ++ evs /\
    existsb is_upload_call evs = overall /\
    (overall = false ->
       existsb is_upload_outcome evs = false /\
       files out.2 !! audit_path = files m !! audit_path) /\
    files out.2 !! csv_path
    = Some (match files m !! csv_path with
            | Some old => old
            | None => header_text row
            end +:+ row_text row).
Proof.
  destruct tick_row_of_inp as [row Hrow]. exists row.
  pose proof (tick_steps row Hrow) as Hout. cbv zeta in Hout. fold ts.
  assert (Hother : forall text fs,
            file_append audit_path text (append_row csv_path row fs) !! csv_path
            = append_row csv_path row fs !! csv_path).
  { intros text fs. apply file_append_other. intros Heq. symmetry in Heq.
    exact (log_path_not_audit_path _ _ Heq). }
  destruct overall.
  - destruct (azure_upload _ _ _ _ _ _) as [[ok msg]|e]; rewrite Hout; cbn [snd files trace].
    + eexists. split; [exact Hrow|]. split; [rewrite <- !app_assoc; reflexivity|].
      split; [reflexivity|]. split; [discriminate|].
      rewrite Hother. apply append_row_lookup.
    + eexists. split; [exact Hrow|]. split; [rewrite <- !app_assoc; reflexivity|].
      split; [reflexivity|]. split; [discriminate|]. apply append_row_lookup.
  - rewrite Hout; cbn [snd files trace].
    eexists. split; [exact Hrow|]. split; [rewrite <- !app_assoc; reflexivity|].
    split; [reflexivity|]. split; [|apply append_row_lookup].
    intros _. split; [reflexivity|]. apply append_row_other.
    apply log_path_not_audit_path.
Qed.

(** C7, as the code has it. A tick leaves the audit log as it was or adds
    one line to its end, of the form
    [timestamp | filename | overall_ok=True | preferred=<iface> | <True or
    False> | <message>]: the overall-health field is the text [True] (a line
    is written on healthy ticks only), the preferred interface is one of
    [IFACES], and the upload flag is [True] or [False]. *)
Theorem audit_line_overall_true :
  files out.2 !! audit_path = files m !! audit_path \/
  exists (ok : bool) (msg : string),
    overall = true /\ preferred ∈ IFACES /\
    files out.2 !! audit_path
    = Some (default "" (files m !! audit_path)
            +:+ (clock_now inp +:+ " | "
                 +:+ ("netmon_" +:+ isoformat (clock_today inp) +:+ ".csv")
                 +:+ " | overall_ok=True | preferred=" +:+ preferred
                 +:+ " | " +:+ PyStr.of_bool ok +:+ " | " +:+ msg
                 +:+ String PyStr.LF "")).
Proof.
  destruct tick_row_of_inp as [row Hrow].
  pose proof (tick_steps row Hrow) as Hout. cbv zeta in Hout.
  pose proof (first_healthy_in IFACES healthy) as Hin. fold overall preferred in Hin.
  assert (Hkeep : append_row csv_path row (files m) !! audit_path
                  = files m !! audit_path).
  { apply append_row_other, log_path_not_audit_path. }
  destruct overall.
  - destruct (azure_upload _ _ _ _ _ _) as [[ok msg]|e]; rewrite Hout; cbn [snd files].
    + right. exists ok, msg. split; [reflexivity|]. split; [now apply Hin|].
      rewrite file_append_lookup, Hkeep. unfold csv_path, log_path_for_today.
      rewrite path_name_join. reflexivity.
    + left. exact Hkeep.
  - left. rewrite Hout; cbn [snd files]. exact Hkeep.
Qed.

End TickFacts.

(** C7, with the overall-health field as [0] or [1], fails: the line the
    wired host writes is not of the form [... | overall_ok=<0|1> | ...] for
    any choice of the other fields. *)
Lemma audit_line_not_zero_or_one :
  exists line,
    files (tick (H := Sample.builtins) (H0 := Sample.sdk) Sample.url "" "" ∅
             LOG_DIR Sample.wired_tick Sample.boot).2
      !! path_join LOG_DIR "netmon_upload.log" = Some line /\
    forall ts filename overall preferred upload_ok msg,
      line <> spec_audit_line ts filename overall preferred upload_ok msg.
Proof.
  eexists. split; [vm_compute; reflexivity|].
  intros ts filename overall preferred upload_ok msg Heq.
  assert (Hspec : exists digit a b,
            (digit = "overall_ok=0" \/ digit = "overall_ok=1") /\
            spec_audit_line ts filename overall preferred upload_ok msg
            = a +:+ digit +:+ b).
  { unfold spec_audit_line.
    exists ("overall_ok=" +:+ PyStr.of_int (int_of_bool overall)),
           (ts +:+ " | " +:+ filename +:+ " | "),
           (" | preferred=" +:+ preferred +:+ " | " +:+ upload_ok +:+ " | " +:+ msg
              +:+ String PyStr.LF "").
    split; [destruct overall; [right|left]; reflexivity|].
    rewrite !string_app_assoc. destruct overall; reflexivity. }
  destruct Hspec as (digit & a & b & Hdigit & Hspec).
  pose proof (contains_app digit a b) as Hc. rewrite <- Hspec, <- Heq in Hc.
  destruct Hdigit as [-> | ->]; vm_compute in Hc; discriminate Hc.
Qed.


(* ===================================================================== *)
(** * Further properties of the interface evaluation *)
(* ===================================================================== *)

Section StageFacts.
Context `{Builtins}.
Variable URL2CHECK : string.

(** A successful HEAD probe reports its status, in range, and its time. *)
Lemma curl_head_ok_status (run : executor) (iface url : string) (t : Z) :
  (curl_head_via_iface run iface url t).1.1 = true ->
  exists code ms,
    curl_head_via_iface run iface url t = (true, Some ms, Some code) /\
    200 <= code < 600.
Proof.
  unfold curl_head_via_iface.
  destruct (run _ _) as [p|e]; simpl; [|discriminate].
  destruct (returncode p =? 0); simpl; [|discriminate].
  destruct (length (PyStr.split (PyStr.strip (stdout p))) =? 2)%nat; simpl;
    [|discriminate].
  destruct (py_index _ 0) as [a|]; simpl; [|discriminate].
  destruct (py_int a) as [code|]; simpl; [|discriminate].
  destruct (py_index _ 1) as [b|]; simpl; [|discriminate].
  destruct (py_float b) as [ts|]; simpl; [|discriminate].
  intros Hok. rewrite Hok. apply andb_true_iff in Hok as [Hlo Hhi].
  exists code, (fmul ts f1000). split; [reflexivity | lia].
Qed.

(** X1. A result whose [iface_ok] is 1 passed every stage: the link is up,
    address and gateway are not empty, both reachability flags are 1, and
    the status is an integer in [200, 600) with a response time next to
    it. *)
Theorem healthy_result_passed_every_stage (run : executor) (iface : string) :
  dict_get (check_iface URL2CHECK run iface) "iface_ok" = Some (VInt 1) ->
  let r := check_iface URL2CHECK run iface in
  dict_get r "iface_up" = Some (VInt 1) /\
  dict_get r "iface_ipv4" <> Some (VStr "") /\
  dict_get r "gateway" <> Some (VStr "") /\
  dict_get r "local_ok" = Some (VInt 1) /\
  dict_get r "nos_ok" = Some (VInt 1) /\
  (exists code, dict_get r "nos_status" = Some (VInt code) /\ 200 <= code < 600) /\
  (exists ms, dict_get r "nos_response_ms" = Some (VStr (format_2f ms))).
Proof.
  cbv zeta. unfold check_iface, check_iface_stages.
  destruct (iface_is_up run iface); cbn -[format_2f]; [|discriminate].
  destruct (iface_ipv4 run iface) as [|c0 ip]; cbn -[format_2f]; [discriminate|].
  destruct (gateway_for_iface run iface) as [|c1 g]; cbn -[format_2f]; [discriminate|].
  destruct (ping_via_iface run iface (String c1 g) 1) as [[] rtt]; cbn -[format_2f];
    [|discriminate].
  pose proof (curl_head_ok_status run iface URL2CHECK 6) as Hhead.
  destruct (curl_head_via_iface run iface URL2CHECK 6) as [[[] ms] code];
    cbn -[format_2f] in *; [|discriminate].
  destruct (Hhead eq_refl) as (code' & ms' & [= -> ->] & Hrange).
  intros _. cbn -[format_2f]. repeat split; try discriminate; eauto.
Qed.

(** The probes that come before the HTTP stage read only what [ip] and
    [ping] print. *)
Lemma local_probes_agree (run1 run2 : executor) (iface : string) :
  (forall cmd t, head cmd <> Some "curl" -> run1 cmd t = run2 cmd t) ->
  iface_is_up run1 iface = iface_is_up run2 iface /\
  iface_ipv4 run1 iface = iface_ipv4 run2 iface /\
  gateway_for_iface run1 iface = gateway_for_iface run2 iface /\
  forall host t, ping_via_iface run1 iface host t = ping_via_iface run2 iface host t.
Proof.
  intros Hagree.
  unfold iface_is_up, iface_ipv4, gateway_for_iface, ping_via_iface.
  repeat split; intros; rewrite Hagree by (cbn; discriminate); reflexivity.
Qed.

(** X2. When the gateway ping of an interface fails, nothing [curl] could
    print reaches the result: two hosts that differ only in what [curl]
    answers give the same result. *)
Theorem failed_ping_hides_http (run1 run2 : executor) (iface : string) :
  (forall cmd t, head cmd <> Some "curl" -> run1 cmd t = run2 cmd t) ->
  dict_get (check_iface URL2CHECK run1 iface) "local_ok" = Some (VInt 0) ->
  check_iface URL2CHECK run1 iface = check_iface URL2CHECK run2 iface.
Proof.
  intros Hagree. destruct (local_probes_agree run1 run2 iface Hagree)
    as (Hup & Hip & Hgw & Hping).
  unfold check_iface, check_iface_stages. rewrite <- Hup, <- Hip, <- Hgw.
  destruct (iface_is_up run1 iface); cbn [PyStr.truthy]; [|reflexivity].
  destruct (iface_ipv4 run1 iface) as [|c0 ip]; cbn [PyStr.truthy]; [reflexivity|].
  destruct (gateway_for_iface run1 iface) as [|c1 g]; cbn [PyStr.truthy];
    [reflexivity|].
  rewrite <- Hping.
  destruct (ping_via_iface run1 iface (String c1 g) 1) as [[] rtt];
    [|reflexivity].
  destruct (curl_head_via_iface run1 iface URL2CHECK 6) as [[? ?] ?].
  cbn. discriminate.
Qed.

End StageFacts.

Lemma healthy_result_passed_every_stage_witness :
  dict_get (check_iface (H := Sample.builtins) Sample.url Sample.wired_host "eth0")
    "iface_ok" = Some (VInt 1) /\
  dict_get (check_iface (H := Sample.builtins) Sample.url Sample.wired_host "eth0")
    "nos_ok" = Some (VInt 1).
Proof.
  split; [vm_compute; reflexivity|].
  refine (proj1 (proj2 (proj2 (proj2 (proj2
    (healthy_result_passed_every_stage (H := Sample.builtins) Sample.url
       Sample.wired_host "eth0" _)))))).
  vm_compute. reflexivity.
Defined.

Lemma failed_ping_hides_http_witness :
  (forall cmd t, head cmd <> Some "curl" ->
     Hosts.silent_gateway cmd t = Hosts.silent_gateway_open_web cmd t) /\
  dict_get (check_iface (H := Sample.builtins) Sample.url Hosts.silent_gateway "eth0")
    "local_ok" = Some (VInt 0) /\
  check_iface (H := Sample.builtins) Sample.url Hosts.silent_gateway "eth0"
  = check_iface (H := Sample.builtins) Sample.url Hosts.silent_gateway_open_web "eth0".
Proof.
  assert (Hagree : forall cmd t, head cmd <> Some "curl" ->
            Hosts.silent_gateway cmd t = Hosts.silent_gateway_open_web cmd t).
  { intros cmd t Hne. unfold Hosts.silent_gateway_open_web.
    now rewrite bool_decide_eq_false_2. }
  split; [exact Hagree|]. split; [vm_compute; reflexivity|].
  apply (failed_ping_hides_http (H := Sample.builtins) Sample.url
           Hosts.silent_gateway Hosts.silent_gateway_open_web "eth0" Hagree).
  vm_compute. reflexivity.
Defined.

(* ===================================================================== *)
(** * Further properties of the flattened row *)
(* ===================================================================== *)

Section RowFacts.
Context `{Builtins}.
Variable URL2CHECK : string.
Variable run : executor.

(** X3. The row of a tick holds every field of every interface result
    under the interface's name, next to the time stamp: no column of one
    interface overwrites a column of another or a column of the tick. *)
Theorem row_holds_each_result (ts iface k : string) :
  iface ∈ IFACES -> k ∈ RESULT_FIELDS ->
  exists overall preferred row,
    tick_row URL2CHECK run ts = Ret (overall, preferred, row) /\
    dict_get row (iface +:+ "_" +:+ k) = dict_get (check_iface URL2CHECK run iface) k /\
    dict_get row "timestamp" = Some (VStr ts) /\
    dict_get row "overall_ok" = Some (VInt (int_of_bool overall)) /\
    dict_get row "preferred_iface" = Some (VStr preferred).
Proof.
  intros Hi Hk. eexists _, _, _. split; [apply tick_row_eq|].
  split; [|repeat split].
  unfold IFACES in Hi. unfold RESULT_FIELDS in Hk.
  repeat (apply elem_of_cons in Hi as [->|Hi]);
    [| |now apply elem_of_nil in Hi];
    repeat (apply elem_of_cons in Hk as [->|Hk]);
    try (now apply elem_of_nil in Hk); reflexivity.
Qed.

End RowFacts.

Lemma row_holds_each_result_witness :
  "eth0" ∈ IFACES /\ "public_ip" ∈ RESULT_FIELDS /\
  exists overall preferred row,
    tick_row (H := Sample.builtins) Sample.url Sample.wired_host "12:00:00"
    = Ret (overall, preferred, row) /\
    dict_get row "eth0_public_ip" = Some (VStr "203.0.113.7").
Proof.
  assert (Hi : "eth0" ∈ IFACES) by apply list_elem_of_here.
  assert (Hk : "public_ip" ∈ RESULT_FIELDS)
    by (do 8 apply list_elem_of_further; apply list_elem_of_here).
  split; [exact Hi|]. split; [exact Hk|].
  destruct (row_holds_each_result (H := Sample.builtins) Sample.url Sample.wired_host
              "12:00:00" "eth0" "public_ip" Hi Hk)
    as (overall & preferred & row & Hrow & Hget & _).
  exists overall, preferred, row. split; [exact Hrow|].
  rewrite <- (eq_refl : dict_get (check_iface (H := Sample.builtins) Sample.url
                                    Sample.wired_host "eth0") "public_ip"
                        = Some (VStr "203.0.113.7")).
  exact Hget.
Defined.

(* ===================================================================== *)
(** * Further properties of the upload notifier *)
(* ===================================================================== *)

Section UploadOutcomes.
Context `{AzureSdk}.
Variables URL2CHECK AZURE_CONTAINER AZURE_STORAGE_CONNECTION_STRING : string.
Variable environ : gmap string string.

(** X4. Whatever the environment, the credentials, the SDK and the file,
    [azure_upload] has two outcomes only: it returns [(False,
    "AZURE_CONTAINER not set")] when the environment names no container, and
    raises [NameError] otherwise. It never returns [True] and never gets to
    build a client. *)
Theorem azure_upload_two_outcomes (fs : gmap Path string) (file : Path) :
  azure_upload URL2CHECK AZURE_CONTAINER AZURE_STORAGE_CONNECTION_STRING environ fs file
  = if container_set environ
    then Raise (NameError "AZURE_ACCOUNT_DEFAULT")
    else Ret (false, "AZURE_CONTAINER not set").
Proof.
  unfold azure_upload, container_set, getenv.
  destruct (PyStr.truthy (PyStr.strip (default "" (environ !! "AZURE_CONTAINER"))));
    reflexivity.
Qed.

End UploadOutcomes.

(* ===================================================================== *)
(** * Further properties of the scheduler loop *)
(* ===================================================================== *)

Section LoopFacts.
Context `{Builtins} `{AzureSdk}.
Variables URL2CHECK AZURE_CONTAINER AZURE_STORAGE_CONNECTION_STRING : string.
Variable environ : gmap string string.
Variable log_dir : Path.

Let audit_path := path_join log_dir "netmon_upload.log".
Let tick' := tick URL2CHECK AZURE_CONTAINER AZURE_STORAGE_CONNECTION_STRING environ
               log_dir.
Let loop := main_loop URL2CHECK AZURE_CONTAINER AZURE_STORAGE_CONNECTION_STRING environ
              log_dir.

Lemma tick_row_of_eq (inp : tick_input) :
  tick_row URL2CHECK (run inp) (clock_now inp)
  = Ret (healthy_tick URL2CHECK inp,
         first_healthy IFACES
           (fun i => iface_ok (check_iface_stages URL2CHECK (run inp) i)),
         tick_row_of URL2CHECK inp).
Proof.
  unfold tick_row_of, healthy_tick.
  destruct (tick_row_of_inp URL2CHECK inp) as [row Hrow]. now rewrite Hrow.
Qed.

Lemma tick_row_of_keys (inp : tick_input) :
  dict_keys (tick_row_of URL2CHECK inp) = row_columns IFACES.
Proof.
  unfold tick_row_of. rewrite tick_row_eq, dict_keys_flatten. vm_compute. reflexivity.
Qed.

Lemma container_unset :
  container_set environ = false ->
  PyStr.strip (getenv environ "AZURE_CONTAINER" "") = "".
Proof.
  unfold container_set, getenv.
  now destruct (PyStr.strip (default "" (environ !! "AZURE_CONTAINER"))).
Qed.

Lemma container_named :
  container_set environ = true ->
  PyStr.strip (getenv environ "AZURE_CONTAINER" "") <> "".
Proof.
  unfold container_set, getenv.
  now destruct (PyStr.strip (default "" (environ !! "AZURE_CONTAINER"))).
Qed.

(** The three ways a tick can go. *)
Lemma tick_unhealthy (inp : tick_input) (m : machine) :
  healthy_tick URL2CHECK inp = false ->
  tick' inp m
  = (Ret tt,
     {| files := append_row (log_path_for_today log_dir (clock_today inp))
                   (tick_row_of URL2CHECK inp) (files m);
        trace := (trace m
                  ++ [Printed (clock_now inp +:+ " - add results to "
                        +:+ path_str (log_path_for_today log_dir (clock_today inp)))])
                 ++ [Slept INTERVAL_SECONDS] |}).
Proof.
  intros Hh. unfold tick'.
  rewrite (tick_steps URL2CHECK _ _ environ log_dir inp m _ (tick_row_of_eq inp)).
  fold (healthy_tick URL2CHECK inp). now rewrite Hh.
Qed.

Lemma tick_refused (inp : tick_input) (m : machine) :
  healthy_tick URL2CHECK inp = true -> container_set environ = false ->
  tick' inp m
  = (Ret tt,
     {| files := file_append audit_path (refused_line URL2CHECK inp)
                   (append_row (log_path_for_today log_dir (clock_today inp))
                      (tick_row_of URL2CHECK inp) (files m));
        trace := (((trace m
                    ++ [Printed (clock_now inp +:+ " - add results to "
                          +:+ path_str (log_path_for_today log_dir (clock_today inp)))])
                   ++ [UploadCalled (log_path_for_today log_dir (clock_today inp))])
                  ++ [UploadReturned false "AZURE_CONTAINER not set"])
                 ++ [Slept INTERVAL_SECONDS] |}).
Proof.
  intros Hh Hc. unfold tick'.
  rewrite (tick_steps URL2CHECK _ _ environ log_dir inp m _ (tick_row_of_eq inp)).
  fold (healthy_tick URL2CHECK inp).
  rewrite Hh, (azure_upload_no_container _ _ _ _ _ _ (container_unset Hc)).
  unfold refused_line, log_path_for_today. now rewrite path_name_join.
Qed.

Lemma tick_crash (inp : tick_input) (m : machine) :
  healthy_tick URL2CHECK inp = true -> container_set environ = true ->
  tick' inp m
  = (Raise (NameError "AZURE_ACCOUNT_DEFAULT"),
     {| files := append_row (log_path_for_today log_dir (clock_today inp))
                   (tick_row_of URL2CHECK inp) (files m);
        trace := (trace m
                  ++ [Printed (clock_now inp +:+ " - add results to "
                        +:+ path_str (log_path_for_today log_dir (clock_today inp)))])
                 ++ [UploadCalled (log_path_for_today log_dir (clock_today inp))] |}).
Proof.
  intros Hh Hc. unfold tick'.
  rewrite (tick_steps URL2CHECK _ _ environ log_dir inp m _ (tick_row_of_eq inp)).
  fold (healthy_tick URL2CHECK inp).
  now rewrite Hh, (azure_upload_with_container _ _ _ _ _ _ (container_named Hc)).
Qed.

Lemma tick_cases (inp : tick_input) (m : machine) :
  (tick' inp m).1
  = (if healthy_tick URL2CHECK inp && container_set environ
     then Raise (NameError "AZURE_ACCOUNT_DEFAULT") else Ret tt).
Proof.
  destruct (healthy_tick URL2CHECK inp) eqn:Hh;
    [destruct (container_set environ) eqn:Hc|].
  - now rewrite tick_crash.
  - now rewrite tick_refused.
  - now rewrite tick_unhealthy.
Qed.

Lemma loop_cons (inp : tick_input) (rest : list tick_input) (m : machine) :
  loop (inp :: rest) m
  = match tick' inp m with
    | (Ret _, m') => loop rest m'
    | (Raise e, m') => (Raise e, m')
    end.
Proof. reflexivity. Qed.

(** X5. The loop ends on [NameError] exactly when the environment names a
    container and some tick is healthy; otherwise it runs every tick it is
    given. *)
Theorem main_loop_outcome (inputs : list tick_input) (m : machine) :
  (main_loop URL2CHECK AZURE_CONTAINER AZURE_STORAGE_CONNECTION_STRING environ log_dir
     inputs m).1
  = if container_set environ && existsb (healthy_tick URL2CHECK) inputs
    then Raise (NameError "AZURE_ACCOUNT_DEFAULT") else Ret tt.
Proof.
  fold loop. revert m. induction inputs as [|inp rest IH]; intros m.
  - now rewrite andb_false_r.
  - rewrite loop_cons. pose proof (tick_cases inp m) as Hc.
    destruct (tick' inp m) as [[[]|e] m']; cbn [fst] in Hc; cbn [existsb].
    + rewrite IH.
      destruct (healthy_tick URL2CHECK inp), (container_set environ);
        cbn in *; congruence.
    + destruct (healthy_tick URL2CHECK inp), (container_set environ);
        cbn in *; congruence.
Qed.

(** X6. On a host whose environment names a container, the first healthy
    tick is the last one: the loop ends there on [NameError], in the state
    that tick leaves after the unhealthy ticks before it, its last act being
    the call of the uploader; the ticks after it do not run. *)
Theorem main_loop_stops_at_first_healthy_tick
    (before after : list tick_input) (inp : tick_input) (m : machine) :
  container_set environ = true ->
  forallb (fun i => negb (healthy_tick URL2CHECK i)) before = true ->
  healthy_tick URL2CHECK inp = true ->
  main_loop URL2CHECK AZURE_CONTAINER AZURE_STORAGE_CONNECTION_STRING environ log_dir
    (before ++ inp :: after) m
  = (Raise (NameError "AZURE_ACCOUNT_DEFAULT"),
     (tick URL2CHECK AZURE_CONTAINER AZURE_STORAGE_CONNECTION_STRING environ log_dir inp
        (main_loop URL2CHECK AZURE_CONTAINER AZURE_STORAGE_CONNECTION_STRING environ
           log_dir before m).2).2) /\
  last (trace (main_loop URL2CHECK AZURE_CONTAINER AZURE_STORAGE_CONNECTION_STRING
                 environ log_dir (before ++ inp :: after) m).2)
  = Some (UploadCalled (log_path_for_today log_dir (clock_today inp))).
Proof.
  intros Hc Hbefore Hh. fold loop tick'. revert m Hbefore.
  induction before as [|b before IH]; intros m Hbefore.
  - cbn [app]. rewrite loop_cons. change ((loop [] m).2) with m.
    rewrite (tick_crash inp m Hh Hc).
    split; [reflexivity|]. cbn [snd trace]. apply last_snoc.
  - cbn [forallb] in Hbefore. apply andb_true_iff in Hbefore as [Hb Hbefore].
    apply negb_true_iff in Hb.
    cbn [app]. rewrite !loop_cons, (tick_unhealthy b m Hb). now apply IH.
Qed.

(** A write keeps what a file holds. *)
Lemma file_append_grows (fs : gmap Path string) (p q : Path) (text old : string) :
  fs !! q = Some old ->
  exists suffix, file_append p text fs !! q = Some (old +:+ suffix).
Proof.
  intros Hq. destruct (decide (p = q)) as [->|Hne].
  - exists text. now rewrite file_append_lookup, Hq.
  - exists "". now rewrite file_append_other, string_app_nil_r.
Qed.

Lemma append_row_grows (fs : gmap Path string) (p q : Path) (row : dict) (old : string) :
  fs !! q = Some old ->
  exists suffix, append_row p row fs !! q = Some (old +:+ suffix).
Proof.
  intros Hq. destruct (decide (p = q)) as [->|Hne].
  - exists (row_text row). now apply append_row_existing.
  - exists "". now rewrite append_row_other, string_app_nil_r.
Qed.

Lemma tick_grows (inp : tick_input) (m : machine) (q : Path) (old : string) :
  files m !! q = Some old ->
  exists suffix, files (tick' inp m).2 !! q = Some (old +:+ suffix).
Proof.
  intros Hq.
  destruct (append_row_grows (files m) (log_path_for_today log_dir (clock_today inp)) q
              (tick_row_of URL2CHECK inp) old Hq) as [s1 Hs1].
  destruct (healthy_tick URL2CHECK inp) eqn:Hh;
    [destruct (container_set environ) eqn:Hc|].
  - rewrite tick_crash by assumption. eauto.
  - rewrite tick_refused by assumption. cbn [snd files].
    destruct (file_append_grows _ audit_path q (refused_line URL2CHECK inp) _ Hs1)
      as [s2 Hs2].
    exists (s1 +:+ s2). now rewrite Hs2, string_app_assoc.
  - rewrite tick_unhealthy by assumption. eauto.
Qed.

(** X7. The loop only ever adds to the end of a file: whatever number of
    ticks it runs and however it ends, a file that existed before still
    starts with all the text it held. *)
Theorem main_loop_append_only
    (inputs : list tick_input) (m : machine) (q : Path) (old : string) :
  files m !! q = Some old ->
  exists suffix,
    files (main_loop URL2CHECK AZURE_CONTAINER AZURE_STORAGE_CONNECTION_STRING environ
             log_dir inputs m).2 !! q
    = Some (old +:+ suffix).
Proof.
  fold loop. revert m old. induction inputs as [|inp rest IH]; intros m old Hq.
  - exists "". now rewrite string_app_nil_r.
  - rewrite loop_cons. destruct (tick_grows inp m q old Hq) as [s1 Hs1].
    destruct (tick' inp m) as [[[]|e] m1]; cbn [snd] in Hs1.
    + destruct (IH m1 _ Hs1) as [s2 Hs2]. exists (s1 +:+ s2).
      now rewrite Hs2, string_app_assoc.
    + eauto.
Qed.

Lemma tick_other (inp : tick_input) (m : machine) (q : Path) :
  q <> log_path_for_today log_dir (clock_today inp) -> q <> audit_path ->
  files (tick' inp m).2 !! q = files m !! q.
Proof.
  intros Hcsv Haudit.
  destruct (healthy_tick URL2CHECK inp) eqn:Hh;
    [destruct (container_set environ) eqn:Hc|].
  - rewrite tick_crash by assumption. cbn [snd files]. now apply append_row_other.
  - rewrite tick_refused by assumption. cbn [snd files].
    rewrite file_append_other by congruence. now apply append_row_other.
  - rewrite tick_unhealthy by assumption. cbn [snd files]. now apply append_row_other.
Qed.

(** X8. The loop writes to the daily files of the dates it saw and to the
    audit log, and to no other file. *)
Theorem main_loop_touches_only_its_logs
    (inputs : list tick_input) (m : machine) (q : Path) :
  (forall inp, inp ∈ inputs -> q <> log_path_for_today log_dir (clock_today inp)) ->
  q <> path_join log_dir "netmon_upload.log" ->
  files (main_loop URL2CHECK AZURE_CONTAINER AZURE_STORAGE_CONNECTION_STRING environ
           log_dir inputs m).2 !! q
  = files m !! q.
Proof.
  intros Hcsv Haudit. fold loop. revert m.
  induction inputs as [|inp rest IH]; intros m; [reflexivity|].
  rewrite loop_cons.
  pose proof (tick_other inp m q (Hcsv inp (list_elem_of_here _ _)) Haudit) as Ht.
  destruct (tick' inp m) as [[[]|e] m1]; cbn [snd] in Ht.
  - rewrite IH; [exact Ht|]. intros i Hi. apply Hcsv. now apply list_elem_of_further.
  - exact Ht.
Qed.

(** The day's file after the ticks of one day, from what it held before. *)
Lemma loop_daily_file_existing
    (inputs : list tick_input) (m : machine) (d : date) (old : string) :
  (forall inp, inp ∈ inputs -> clock_today inp = d) ->
  (loop inputs m).1 = Ret tt ->
  files m !! log_path_for_today log_dir d = Some old ->
  files (loop inputs m).2 !! log_path_for_today log_dir d
  = Some (old +:+ String.concat "" (row_text <$> (tick_row_of URL2CHECK <$> inputs))).
Proof.
  revert m old. induction inputs as [|inp rest IH]; intros m old Hday Hret Hold.
  - cbn. now rewrite string_app_nil_r.
  - rewrite loop_cons in Hret |- *.
    assert (Hd : clock_today inp = d) by apply Hday, list_elem_of_here.
    assert (Hcsv : files (tick' inp m).2 !! log_path_for_today log_dir d
                   = Some (old +:+ row_text (tick_row_of URL2CHECK inp))).
    { destruct (healthy_tick URL2CHECK inp) eqn:Hh;
        [destruct (container_set environ) eqn:Hc|].
      - rewrite tick_crash by assumption. cbn [snd files]. rewrite Hd.
        now apply append_row_existing.
      - rewrite tick_refused by assumption. cbn [snd files]. rewrite Hd.
        rewrite file_append_other by (intros E; symmetry in E;
                                      exact (log_path_not_audit_path _ _ E)).
        now apply append_row_existing.
      - rewrite tick_unhealthy by assumption. cbn [snd files]. rewrite Hd.
        now apply append_row_existing. }
    destruct (tick' inp m) as [[[]|e] m1]; cbn [fst snd] in *; [|discriminate].
    rewrite (IH m1 _ (fun i Hi => Hday i (list_elem_of_further _ _ _ Hi)) Hret Hcsv).
    rewrite string_app_assoc. f_equal. f_equal.
    cbn [fmap list_fmap]. destruct rest; cbn; [now rewrite string_app_nil_r | reflexivity].
Qed.

(** X9. When the loop runs all the ticks of one day and the day's file did
    not exist, the file holds afterwards the header of the fixed columns
    and one row per tick, in the order of the ticks. *)
Theorem main_loop_daily_file
    (first : tick_input) (rest : list tick_input) (m : machine) (d : date) :
  (forall inp, inp ∈ first :: rest -> clock_today inp = d) ->
  (main_loop URL2CHECK AZURE_CONTAINER AZURE_STORAGE_CONNECTION_STRING environ log_dir
     (first :: rest) m).1 = Ret tt ->
  files m !! log_path_for_today log_dir d = None ->
  files (main_loop URL2CHECK AZURE_CONTAINER AZURE_STORAGE_CONNECTION_STRING environ
           log_dir (first :: rest) m).2 !! log_path_for_today log_dir d
  = Some (Csv.writeheader (row_columns IFACES)
          +:+ String.concat ""
                (row_text <$> (tick_row_of URL2CHECK <$> first :: rest))).
Proof.
  intros Hday Hret Hnone. fold loop in Hret |- *.
  rewrite loop_cons in Hret |- *.
  assert (Hd : clock_today first = d) by apply Hday, list_elem_of_here.
  assert (Hcsv : files (tick' first m).2 !! log_path_for_today log_dir d
                 = Some (Csv.writeheader (row_columns IFACES)
                         +:+ row_text (tick_row_of URL2CHECK first))).
  { rewrite <- (tick_row_of_keys first). fold (header_text (tick_row_of URL2CHECK first)).
    destruct (healthy_tick URL2CHECK first) eqn:Hh;
      [destruct (container_set environ) eqn:Hc|].
    - rewrite tick_crash by assumption. cbn [snd files]. rewrite Hd.
      now apply append_row_new.
    - rewrite tick_refused by assumption. cbn [snd files]. rewrite Hd.
      rewrite file_append_other by (intros E; symmetry in E;
                                    exact (log_path_not_audit_path _ _ E)).
      now apply append_row_new.
    - rewrite tick_unhealthy by assumption. cbn [snd files]. rewrite Hd.
      now apply append_row_new. }
  destruct (tick' first m) as [[[]|e] m1]; cbn [fst snd] in *; [|discriminate].
  rewrite (loop_daily_file_existing rest m1 d _
             (fun i Hi => Hday i (list_elem_of_further _ _ _ Hi)) Hret Hcsv).
  rewrite string_app_assoc. f_equal. f_equal.
  cbn [fmap list_fmap]. destruct rest; cbn; [now rewrite string_app_nil_r | reflexivity].
Qed.


(** X15. A loop that runs all its ticks does, tick after tick and in this
    order: print where the row goes, call the uploader and get its refusal
    if the tick is healthy, sleep [INTERVAL_SECONDS]. Nothing else reaches
    the outside, and the sleep follows every tick, a refused upload
    included. *)
Theorem main_loop_trace (inputs : list tick_input) (m : machine) :
  (main_loop URL2CHECK AZURE_CONTAINER AZURE_STORAGE_CONNECTION_STRING environ log_dir
     inputs m).1 = Ret tt ->
  trace (main_loop URL2CHECK AZURE_CONTAINER AZURE_STORAGE_CONNECTION_STRING environ
           log_dir inputs m).2
  = trace m ++ concat (tick_events URL2CHECK log_dir <$> inputs).
Proof.
  fold loop. revert m. induction inputs as [|inp rest IH]; intros m Hret.
  - cbn. now rewrite app_nil_r.
  - rewrite loop_cons in Hret |- *. cbn [fmap list_fmap concat]. unfold tick_events at 1.
    destruct (healthy_tick URL2CHECK inp) eqn:Hh;
      [destruct (container_set environ) eqn:Hc|].
    + rewrite tick_crash in Hret by assumption. discriminate Hret.
    + rewrite tick_refused in Hret |- * by assumption.
      rewrite (IH _ Hret). cbn [trace app]. now rewrite <- !app_assoc.
    + rewrite tick_unhealthy in Hret |- * by assumption.
      rewrite (IH _ Hret). cbn [trace app]. now rewrite <- !app_assoc.
Qed.

End LoopFacts.

Lemma main_loop_trace_witness :
  (main_loop (H := Sample.builtins) (H0 := Sample.sdk) Sample.url "" "" ∅ LOG_DIR
     [Sample.offline_tick; Sample.wired_tick] Sample.boot).1 = Ret tt /\
  trace (main_loop (H := Sample.builtins) (H0 := Sample.sdk) Sample.url "" "" ∅ LOG_DIR
           [Sample.offline_tick; Sample.wired_tick] Sample.boot).2
  = [ Printed "2024-03-07T12:00:30 - add results to log/netmon_2024-03-07.csv";
      Slept 30;
      Printed "2024-03-07T12:00:00 - add results to log/netmon_2024-03-07.csv";
      UploadCalled ["log"; "netmon_2024-03-07.csv"];
      UploadReturned false "AZURE_CONTAINER not set";
      Slept 30 ].
Proof.
  assert (Hret : (main_loop (H := Sample.builtins) (H0 := Sample.sdk) Sample.url "" "" ∅
                    LOG_DIR [Sample.offline_tick; Sample.wired_tick] Sample.boot).1
                 = Ret tt) by (vm_compute; reflexivity).
  split; [exact Hret|].
  rewrite (main_loop_trace (H := Sample.builtins) (H0 := Sample.sdk) Sample.url "" "" ∅
             LOG_DIR [Sample.offline_tick; Sample.wired_tick] Sample.boot Hret).
  vm_compute. reflexivity.
Defined.

Lemma main_loop_stops_at_first_healthy_tick_witness :
  container_set Hosts.configured = true /\
  forallb (fun i => negb (healthy_tick (H := Sample.builtins) Sample.url i))
    [Sample.offline_tick] = true /\
  healthy_tick (H := Sample.builtins) Sample.url Sample.wired_tick = true /\
  last (trace (main_loop (H := Sample.builtins) (H0 := Sample.sdk) Sample.url "" ""
                 Hosts.configured LOG_DIR
                 ([Sample.offline_tick] ++ Sample.wired_tick :: [Hosts.later_tick])
                 Sample.boot).2)
  = Some (UploadCalled ["log"; "netmon_2024-03-07.csv"]).
Proof.
  assert (Hc : container_set Hosts.configured = true) by (vm_compute; reflexivity).
  assert (Hb : forallb (fun i => negb (healthy_tick (H := Sample.builtins) Sample.url i))
                 [Sample.offline_tick] = true) by (vm_compute; reflexivity).
  assert (Hh : healthy_tick (H := Sample.builtins) Sample.url Sample.wired_tick = true)
    by (vm_compute; reflexivity).
  split; [exact Hc|]. split; [exact Hb|]. split; [exact Hh|].
  exact (proj2 (main_loop_stops_at_first_healthy_tick (H := Sample.builtins)
                  (H0 := Sample.sdk) Sample.url "" "" Hosts.configured LOG_DIR
                  [Sample.offline_tick] [Hosts.later_tick] Sample.wired_tick Sample.boot
                  Hc Hb Hh)).
Defined.

Lemma main_loop_append_only_witness :
  files Hosts.used !! Hosts.notes = Some "keep me" /\
  exists suffix,
    files (main_loop (H := Sample.builtins) (H0 := Sample.sdk) Sample.url "" "" ∅
             LOG_DIR [Sample.offline_tick; Sample.wired_tick] Hosts.used).2
      !! Hosts.notes
    = Some ("keep me" +:+ suffix).
Proof.
  split; [reflexivity|].
  exact (main_loop_append_only (H := Sample.builtins) (H0 := Sample.sdk) Sample.url "" ""
           ∅ LOG_DIR [Sample.offline_tick; Sample.wired_tick] Hosts.used Hosts.notes
           "keep me" eq_refl).
Defined.

Lemma main_loop_touches_only_its_logs_witness :
  (forall inp, inp ∈ [Sample.wired_tick] ->
     Hosts.notes <> log_path_for_today LOG_DIR (clock_today inp)) /\
  Hosts.notes <> path_join LOG_DIR "netmon_upload.log" /\
  files (main_loop (H := Sample.builtins) (H0 := Sample.sdk) Sample.url "" ""
           Hosts.configured LOG_DIR [Sample.wired_tick] Hosts.used).2 !! Hosts.notes
  = Some "keep me".
Proof.
  assert (Hcsv : forall inp, inp ∈ [Sample.wired_tick] ->
            Hosts.notes <> log_path_for_today LOG_DIR (clock_today inp)).
  { intros inp Hin. apply list_elem_of_singleton in Hin as ->. discriminate. }
  assert (Haudit : Hosts.notes <> path_join LOG_DIR "netmon_upload.log") by discriminate.
  split; [exact Hcsv|]. split; [exact Haudit|].
  exact (main_loop_touches_only_its_logs (H := Sample.builtins) (H0 := Sample.sdk)
           Sample.url "" "" Hosts.configured LOG_DIR [Sample.wired_tick] Hosts.used
           Hosts.notes Hcsv Haudit).
Defined.

Lemma main_loop_daily_file_witness :
  (forall inp, inp ∈ [Sample.offline_tick; Sample.wired_tick] ->
     clock_today inp = Sample.noon) /\
  (main_loop (H := Sample.builtins) (H0 := Sample.sdk) Sample.url "" "" ∅ LOG_DIR
     [Sample.offline_tick; Sample.wired_tick] Sample.boot).1 = Ret tt /\
  files Sample.boot !! log_path_for_today LOG_DIR Sample.noon = None /\
  files (main_loop (H := Sample.builtins) (H0 := Sample.sdk) Sample.url "" "" ∅ LOG_DIR
           [Sample.offline_tick; Sample.wired_tick] Sample.boot).2
    !! log_path_for_today LOG_DIR Sample.noon
  = Some (Csv.writeheader (row_columns IFACES)
          +:+ String.concat ""
                (row_text <$> (tick_row_of (H := Sample.builtins) Sample.url
                                 <$> [Sample.offline_tick; Sample.wired_tick]))).
Proof.
  assert (Hday : forall inp, inp ∈ [Sample.offline_tick; Sample.wired_tick] ->
            clock_today inp = Sample.noon).
  { intros inp Hin. apply elem_of_cons in Hin as [->|Hin]; [reflexivity|].
    apply list_elem_of_singleton in Hin as ->. reflexivity. }
  assert (Hret : (main_loop (H := Sample.builtins) (H0 := Sample.sdk) Sample.url "" "" ∅
                    LOG_DIR [Sample.offline_tick; Sample.wired_tick] Sample.boot).1
                 = Ret tt) by (vm_compute; reflexivity).
  split; [exact Hday|]. split; [exact Hret|]. split; [reflexivity|].
  exact (main_loop_daily_file (H := Sample.builtins) (H0 := Sample.sdk) Sample.url "" ""
           ∅ LOG_DIR Sample.offline_tick [Sample.wired_tick] Sample.boot Sample.noon
           Hday Hret eq_refl).
Defined.

(* ===================================================================== *)
(** * What the inspector hands on *)
(* ===================================================================== *)

Lemma all_chars_rev_app (ok : ascii -> bool) (a b : string) :
  all_chars ok (String.rev_app a b) = all_chars ok a && all_chars ok b.
Proof.
  revert b. induction a as [|c a IH]; intros b; cbn [String.rev_app all_chars].
  - reflexivity.
  - rewrite IH. cbn [all_chars]. now destruct (ok c), (all_chars ok a).
Qed.

Lemma all_chars_rev (ok : ascii -> bool) (a : string) :
  all_chars ok (String.rev a) = all_chars ok a.
Proof. unfold String.rev. rewrite all_chars_rev_app. cbn. apply andb_true_r. Qed.

(** The words of [s.split()] hold no blank. *)
Lemma split_go_words (cur s : string) :
  all_chars not_blank cur = true ->
  Forall (fun w => all_chars not_blank w = true) (PyStr.split_go cur s).
Proof.
  revert cur. induction s as [|c s IH]; intros cur Hcur; cbn [PyStr.split_go].
  - destruct cur; cbn [PyStr.flush]; [constructor|].
    constructor; [now rewrite all_chars_rev | constructor].
  - destruct (PyStr.is_space c) eqn:Hc.
    + apply Forall_app. split; [|now apply IH].
      destruct cur; cbn [PyStr.flush]; [constructor|].
      constructor; [now rewrite all_chars_rev | constructor].
    + apply IH. cbn [all_chars]. unfold not_blank at 1. now rewrite Hc.
Qed.

Lemma split_words (s : string) :
  Forall (fun w => all_chars not_blank w = true) (PyStr.split s).
Proof. now apply split_go_words. Qed.

(** What the loop over the route words returns is one of them, the one
    after a [via]. *)
Lemma after_via_found (parts : list string) (g : string) :
  after_via parts = g -> g <> "" ->
  exists before rest, parts = before ++ "via" :: g :: rest.
Proof.
  induction parts as [|tok parts IH]; cbn [after_via]; intros Hg Hne.
  - now subst g.
  - destruct (String.eqb_spec tok "via") as [->|Hvia].
    + destruct parts as [|next parts].
      * now subst g.
      * subst g. now exists [], parts.
    + destruct (IH Hg Hne) as (before & rest & ->). now exists (tok :: before), rest.
Qed.

Section InspectorFacts.
Variable run : executor.
Variable iface : string.

(** X11. The gateway the inspector reports is empty or one word without
    blanks; when it is not empty, the route query ended with status 0 and
    the word is the one printed right after a [via]. *)
Theorem gateway_is_word_after_via :
  all_chars not_blank (gateway_for_iface run iface) = true /\
  (gateway_for_iface run iface <> "" ->
   exists p before rest,
     run ["ip"; "route"; "show"; "default"; "dev"; iface] 2 = Ret p /\
     returncode p = 0 /\
     PyStr.split (PyStr.strip (stdout p))
     = before ++ "via" :: gateway_for_iface run iface :: rest).
Proof.
  unfold gateway_for_iface.
  destruct (run _ _) as [p|e]; cbn; [|now split].
  destruct (Z.eqb_spec (returncode p) 0) as [Hrc|Hrc]; cbn; [|now split].
  set (parts := PyStr.split (PyStr.strip (stdout p))).
  assert (Hnonempty : after_via parts <> "" ->
            exists before rest, parts = before ++ "via" :: after_via parts :: rest)
    by (intros Hne; now apply after_via_found).
  split.
  - destruct (after_via parts) as [|c g] eqn:Hg; [reflexivity|].
    destruct Hnonempty as (before & rest & Hparts); [discriminate|].
    pose proof (split_words (PyStr.strip (stdout p))) as Hwords. fold parts in Hwords.
    rewrite Hparts in Hwords. apply Forall_app in Hwords as [_ Hwords].
    apply Forall_cons in Hwords as [_ Hwords]. now apply Forall_cons in Hwords as [Hw _].
  - intros Hne. destruct (Hnonempty Hne) as (before & rest & Hparts). now exists p, before, rest.
Qed.




End InspectorFacts.

(* ===================================================================== *)
(** * The gateway ping *)
(* ===================================================================== *)

Section PingFacts.
Context `{Builtins}.
Variable run : executor.
Variables iface host : string.
Variable timeout_s : Z.



End PingFacts.

(* ===================================================================== *)
(** * One file per day *)
(* ===================================================================== *)

Lemma string_app_inv (a1 a2 b1 b2 : string) :
  String.length a1 = String.length a2 -> a1 +:+ b1 = a2 +:+ b2 -> a1 = a2 /\ b1 = b2.
Proof.
  revert a2. induction a1 as [|c a1 IH]; intros [|c2 a2] Hlen Heq;
    try discriminate Hlen.
  - now split.
  - injection Hlen as Hlen. injection Heq as -> Heq.
    destruct (IH _ Hlen Heq) as [-> ->]. now split.
Qed.

Lemma string_length_app (a b : string) :
  String.length (a +:+ b) = (String.length a + String.length b)%nat.
Proof.
  induction a as [|c a IH]; [reflexivity|].
  change (S (String.length (a +:+ b)) = S (String.length a + String.length b)).
  now rewrite IH.
Qed.

Lemma pad_reads_back (width : nat) (bound n : Z) :
  forallb (reads_back width) (seq 0 (Z.to_nat bound)) = true ->
  0 <= n < bound ->
  String.length (zfill width (PyStr.of_int n)) = width /\
  Sample.digits_go 0 (zfill width (PyStr.of_int n)) = Some n.
Proof.
  intros Hall Hn. rewrite forallb_forall in Hall.
  specialize (Hall (Z.to_nat n)). rewrite in_seq in Hall.
  assert (Hin : (0 <= Z.to_nat n < 0 + Z.to_nat bound)%nat) by lia.
  apply Hall in Hin. unfold reads_back in Hin. rewrite Z2Nat.id in Hin by lia.
  apply andb_true_iff in Hin as [Hlen Hread].
  split; [now apply Nat.eqb_eq | now apply bool_decide_eq_true_1 in Hread].
Qed.

Lemma years_read_back : forallb (reads_back 4) (seq 0 (Z.to_nat 10000)) = true.
Proof. vm_compute. reflexivity. Qed.

Lemma months_and_days_read_back :
  forallb (reads_back 2) (seq 0 (Z.to_nat 32)) = true.
Proof. vm_compute. reflexivity. Qed.

Lemma isoformat_inj (d1 d2 : date) :
  valid_date d1 -> valid_date d2 -> isoformat d1 = isoformat d2 -> d1 = d2.
Proof.
  intros (Hy1 & Hm1 & Hd1) (Hy2 & Hm2 & Hd2). unfold isoformat. intros Heq.
  destruct (pad_reads_back 4 10000 (year d1) years_read_back ltac:(lia)) as [Ly1 Ry1].
  destruct (pad_reads_back 4 10000 (year d2) years_read_back ltac:(lia)) as [Ly2 Ry2].
  destruct (pad_reads_back 2 32 (month d1) months_and_days_read_back ltac:(lia))
    as [Lm1 Rm1].
  destruct (pad_reads_back 2 32 (month d2) months_and_days_read_back ltac:(lia))
    as [Lm2 Rm2].
  destruct (pad_reads_back 2 32 (day d1) months_and_days_read_back ltac:(lia))
    as [Ld1 Rd1].
  destruct (pad_reads_back 2 32 (day d2) months_and_days_read_back ltac:(lia))
    as [Ld2 Rd2].
  apply string_app_inv in Heq as [Hy Heq]; [|congruence].
  apply (string_app_inv "-" "-") in Heq as [_ Heq]; [|reflexivity].
  apply string_app_inv in Heq as [Hm Heq]; [|congruence].
  apply (string_app_inv "-" "-") in Heq as [_ Hd]; [|reflexivity].
  rewrite Hy in Ry1. rewrite Hm in Rm1. rewrite Hd in Rd1.
  destruct d1, d2; cbn in *. f_equal; congruence.
Qed.

(** X14. Every day has a file of its own: the daily files of two different
    dates are different files, in whatever directory the logs are kept. *)
Theorem log_path_for_today_inj (log_dir : Path) (d1 d2 : date) :
  valid_date d1 -> valid_date d2 ->
  log_path_for_today log_dir d1 = log_path_for_today log_dir d2 -> d1 = d2.
Proof.
  intros Hv1 Hv2 Heq. unfold log_path_for_today in Heq.
  apply path_join_inj in Heq.
  apply (string_app_inv "netmon_" "netmon_") in Heq as [_ Heq]; [|reflexivity].
  apply isoformat_inj; [exact Hv1 | exact Hv2 |].
  assert (Hlen : forall d, valid_date d -> String.length (isoformat d) = 10%nat).
  { intros d (Hy & Hm & Hd). unfold isoformat.
    destruct (pad_reads_back 4 10000 (year d) years_read_back ltac:(lia)) as [Ly _].
    destruct (pad_reads_back 2 32 (month d) months_and_days_read_back ltac:(lia))
      as [Lm _].
    destruct (pad_reads_back 2 32 (day d) months_and_days_read_back ltac:(lia))
      as [Ld _].
    rewrite !string_length_app, Ly, Lm, Ld. reflexivity. }
  apply string_app_inv in Heq as [Hiso _]; [exact Hiso|].
  now rewrite !Hlen.
Qed.

Lemma log_path_for_today_inj_witness :
  valid_date Sample.noon /\ valid_date Hosts.next_day /\
  log_path_for_today LOG_DIR Sample.noon <> log_path_for_today LOG_DIR Hosts.next_day.
Proof.
  assert (Hv1 : valid_date Sample.noon) by (unfold valid_date; cbn; lia).
  assert (Hv2 : valid_date Hosts.next_day) by (unfold valid_date; cbn; lia).
  split; [exact Hv1|]. split; [exact Hv2|].
  intros Heq.
  pose proof (log_path_for_today_inj LOG_DIR Sample.noon Hosts.next_day Hv1 Hv2 Heq) as Hd.
  discriminate Hd.
Defined.
